(** * A shallow embedding of the Databricks/Telegram bot (src/app.py)

    The bot talks to two remote services: the job service, through
    [WorkspaceClient], and the chat service, through [telebot].  Both are
    modelled as part of a [World]: the job service by the answers it gives to
    each call, the chat service by a fault schedule.  Everything the bot does
    to either of them is appended to the trace of a [Journal].  Handlers are
    computations that read the world, write the journal and may raise, so
    that Python's [try]/[except Exception] is a combinator and an exception
    that leaves a handler is a [Raise] result.

    A Python [str] is represented by its UTF-8 encoding, so one character is
    one to four bytes of a [string]. *)

From Stdlib Require Import ZArith List String Ascii Bool Lia DecimalString.
Import ListNotations.
Local Open Scope Z_scope.
Local Open Scope string_scope.

(** ** Values decoded from and encoded to JSON *)

(** What [json.loads] returns: a [dict] is kept as its list of items. *)
#[warnings="-register-all"] Inductive json : Type :=
| JNull
| JBool (b : bool)
| JNum (z : Z)
| JStr (s : string)
| JArr (l : list json)
| JObj (items : list (string * json)).

(** ** Records of the job service *)

(** The enumeration [PauseStatus] of the job client. *)
Inductive PauseStatus : Type :=
| PAUSED
| UNPAUSED.

(** What the attribute [pause_status] can hold: the job client fills it with
    a member of its enumeration or leaves it [None]; the source assigns a
    string to it. *)
Inductive PauseValue : Type :=
| Member (p : PauseStatus)
| Text (s : string)
| Unset.

(** [settings.schedule]: the source reads and assigns [pause_status], the
    other two fields ride along. *)
Record CronSchedule : Type := mkCronSchedule {
  pause_status : PauseValue;
  quartz_cron_expression : string;
  timezone_id : string
}.

(** [job.settings]: [name] and [schedule] are the fields the bot touches;
    [other_settings] stands for every remaining field of the object. *)
Record JobSettings : Type := mkJobSettings {
  name : string;
  schedule : option CronSchedule;
  other_settings : list (string * json)
}.

Record Job : Type := mkJob {
  job_id : Z;
  creator_user_name : option string;
  settings : JobSettings
}.

Inductive RunResultState : Type :=
| CANCELED | DISABLED | EXCLUDED | FAILED | MAXIMUM_CONCURRENT_RUNS_REACHED
| SUCCESS | SUCCESS_WITH_FAILURES | TIMEDOUT | UPSTREAM_CANCELED
| UPSTREAM_FAILED.

Record RunState : Type := mkRunState {
  result_state : option RunResultState;
  state_message : option string
}.

(** Time stamps are epoch milliseconds; an absent one is [None]. *)
Record Run : Type := mkRun {
  run_id : Z;
  start_time : option Z;
  end_time : option Z;
  state : RunState
}.

(** ** Results and exceptions *)

(** An exception is represented by the text [str(e)] gives. *)
Inductive Result (A : Type) : Type :=
| Ok (a : A)
| Raise (e : string).
Arguments Ok {A} a.
Arguments Raise {A} e.

(** ** Observable effects *)

Record InlineKeyboardButton : Type := mkButton {
  text : string;
  callback_data : string
}.

Inductive Event : Type :=
| Sent (body : string) (reply_markup : option InlineKeyboardButton)
       (markdown : bool)
| Answered (call_id : string) (notice : string)
| Updated (target : json) (new_settings : JobSettings)
| Repaired (target : json).

(** The object [w.jobs.repair_run] returns: [resp.run_id] is the argument of
    the call, as the waiter bound it; the id of the repair is in the response
    it wraps. *)
Record Wait : Type := mkWait {
  wait_run_id : json;
  response_repair_id : Z
}.

(** A row of [failed] in [databricks_job_notification]. *)
Record FailedRow : Type := mkFailedRow {
  f_job : string;
  f_run_id : Z;
  f_start : option Z;
  f_end : option Z
}.

Inductive Diag : Type :=
| Printed (f : FailedRow)
| LoggedException (msg : string).

(** ** The world and the journal *)

(** What a handler finds: the answers of the job service, the fault schedule
    of the chat service and the host's clock.  A handler reads the world and
    never changes it. *)
Record World : Type := mkWorld {
  (* the job service: what each call of the client answers; for a repair,
     the id of the repair *)
  jobs_list : Result (list Job);
  jobs_list_runs : json -> Result (list Run);
  jobs_get : json -> Result Job;
  jobs_update : json -> JobSettings -> Result unit;
  jobs_repair_run : json -> Result Z;
  (* the chat service: the n-th call fails with the given text *)
  chat_fault : nat -> option string;
  (* the host: its clock in epoch milliseconds and the offset of its local
     time from UTC in seconds *)
  now : Z;
  host_utcoffset : Z
}.

(** What a handler leaves behind, oldest first: the requests that reached the
    chat service and the mutating requests made to the job service on
    [trace], standard output and the log on [console]. *)
Record Journal : Type := mkJournal {
  chat_calls : nat;
  trace : list Event;
  console : list Diag
}.

Definition blank : Journal := mkJournal 0 [] [].

(** ** The monad of handlers *)

Definition M (A : Type) : Type := World -> Journal -> Result A * Journal.

Definition ret {A} (a : A) : M A := fun _ s => (Ok a, s).

Definition bind {A B} (m : M A) (k : A -> M B) : M B :=
  fun w s => match m w s with
             | (Ok a, s') => k a w s'
             | (Raise e, s') => (Raise e, s')
             end.

Definition raise {A} (e : string) : M A := fun _ s => (Raise e, s).

(** [try: body except Exception as e: handler e] *)
Definition try_except {A} (body : M A) (handler : string -> M A) : M A :=
  fun w s => match body w s with
             | (Ok a, s') => (Ok a, s')
             | (Raise e, s') => handler e w s'
             end.

Declare Scope monad_scope.
Delimit Scope monad_scope with monad.
Notation "x <- m ;; k" := (bind m (fun x => k))
  (at level 61, m at next level, right associativity) : monad_scope.
Notation "m ;; k" := (bind m (fun _ => k))
  (at level 61, right associativity) : monad_scope.
Local Open Scope monad_scope.

(** A [for] loop that updates a local variable. *)
Fixpoint for_acc {A S} (l : list A) (body : S -> A -> M S) (s : S) : M S :=
  match l with
  | [] => ret s
  | x :: l' => s' <- body s x ;; for_acc l' body s'
  end.

(** A [for] loop run for its effects. *)
Fixpoint for_each {A} (l : list A) (body : A -> M unit) : M unit :=
  match l with
  | [] => ret tt
  | x :: l' => body x ;; for_each l' body
  end.

(** ** Primitive calls *)

Definition record (ev : Event) (s : Journal) : Journal :=
  mkJournal (chat_calls s) (trace s ++ [ev]) (console s).

Definition note (d : Diag) (s : Journal) : Journal :=
  mkJournal (chat_calls s) (trace s) (console s ++ [d]).

Definition tick_chat (s : Journal) : Journal :=
  mkJournal (S (chat_calls s)) (trace s) (console s).

(** A call of the chat service: it fails when the fault schedule says so and
    is recorded on the trace otherwise. *)
Definition chat_call (ev : Event) : M unit :=
  fun w s => match chat_fault w (chat_calls s) with
             | Some e => (Raise e, tick_chat s)
             | None => (Ok tt, record ev (tick_chat s))
             end.

(** [bot.send_message(CHAT_ID, body, reply_markup=kb, parse_mode=...)]; every
    message goes to the one configured chat. *)
Definition send_message (body : string) (kb : option InlineKeyboardButton)
    (markdown : bool) : M unit :=
  chat_call (Sent body kb markdown).

(** [bot.answer_callback_query(call.id, notice)] *)
Definition answer_callback_query (call_id notice : string) : M unit :=
  chat_call (Answered call_id notice).

(** [w.jobs.list()] *)
Definition ws_jobs_list : M (list Job) := fun w s => (jobs_list w, s).

(** [w.jobs.list_runs(job_id=..., expand_tasks=False)] *)
Definition ws_jobs_list_runs (target : json) : M (list Run) :=
  fun w s => (jobs_list_runs w target, s).

(** [w.jobs.get(job_id=...)] *)
Definition ws_jobs_get (target : json) : M Job :=
  fun w s => (jobs_get w target, s).

(** [w.jobs.update(job_id=..., new_settings=...)]: the request is recorded
    whatever the service answers. *)
Definition ws_jobs_update (target : json) (st : JobSettings) : M unit :=
  fun w s => (jobs_update w target st, record (Updated target st) s).

(** [w.jobs.repair_run(run_id, rerun_all_failed_tasks=True)]: the client
    wraps the answer of the service in a waiter to which it binds the
    [run_id] it was called with. *)
Definition ws_jobs_repair_run (target : json) : M Wait :=
  fun w s => (match jobs_repair_run w target with
              | Ok rid => Ok (mkWait target rid)
              | Raise e => Raise e
              end,
              record (Repaired target) s).

Definition print (f : FailedRow) : M unit :=
  fun _ s => (Ok tt, note (Printed f) s).

Definition logging_exception (msg : string) : M unit :=
  fun _ s => (Ok tt, note (LoggedException msg) s).

(** ** Dates and clock times *)

(** A calendar date is represented by its day number, counted from the epoch
    date of the zone.  [utcoffset] is in seconds, [ms] in milliseconds. *)
Definition local_date (utcoffset ms : Z) : Z :=
  (ms + utcoffset * 1000) / 86400000.

(** [date.today()]: the date on the host's own local clock. *)
Definition date_today : M Z :=
  fun w s => (Ok (local_date (host_utcoffset w) (now w)), s).

Definition str_int (z : Z) : string := NilEmpty.string_of_int (Z.to_int z).

Definition two_digits (z : Z) : string :=
  if (z <? 10)%Z then "0" ++ str_int z else str_int z.

(** [strftime("%H:%M")] of the local time at offset [utcoffset]. *)
Definition clock_HHMM (utcoffset ms : Z) : string :=
  let secs := ms / 1000 + utcoffset in
  two_digits ((secs mod 86400) / 3600) ++ ":" ++ two_digits ((secs mod 3600) / 60).

Definition LF : string := String "010"%char EmptyString.

(** A byte that continues a character of the UTF-8 encoding. *)
Definition is_continuation (c : ascii) : bool :=
  let n := nat_of_ascii c in (128 <=? n)%nat && (n <? 192)%nat.

(** [s[:n]]: the first [n] characters of [s], each with all its bytes. *)
Fixpoint take_chars (n : nat) (s : string) : string :=
  match s with
  | EmptyString => EmptyString
  | String c rest =>
    if is_continuation c then String c (take_chars n rest)
    else match n with
         | O => EmptyString
         | S n' => String c (take_chars n' rest)
         end
  end.

(** Truth value of an optional integer: [None] and [0] are false. *)
Definition truthy (t : option Z) : bool :=
  match t with
  | Some z => negb (z =? 0)%Z
  | None => false
  end.

(** ** The bot *)

Record CallbackQuery : Type := mkCall {
  id : string;
  data : string
}.

Section Bot.

(** The configured operator identity, [EMAIL]. *)
Variable EMAIL : string.

(** [TZ]: the offset from UTC, in seconds, that the configured zone has at
    an instant given in epoch milliseconds. *)
Variable TZ : Z -> Z.

(** [json.dumps] and [json.loads]; the latter is [None] where it raises. *)
Variable json_dumps : json -> string.
Variable json_loads : string -> option json.

(** [str()] of a decoded value, as an f-string interpolates it. *)
Variable py_str : json -> string.

(** [j.creator_user_name == EMAIL] *)
Definition owned (j : Job) : bool :=
  match creator_user_name j with
  | Some u => String.eqb u EMAIL
  | None => false
  end.

(** [t and datetime.fromtimestamp(t / 1000, tz=TZ).date() == today] *)
Definition on_date (today : Z) (t : option Z) : bool :=
  match t with
  | Some ms => negb (ms =? 0)%Z && (local_date (TZ ms) ms =? today)%Z
  | None => false
  end.

(** [datetime.fromtimestamp(t / 1000, tz=TZ).strftime("%H:%M")]; dividing
    an absent time stamp is a type error. *)
Definition strftime_HHMM (t : option Z) : M string :=
  match t with
  | Some ms => ret (clock_HHMM (TZ ms) ms)
  | None => raise "unsupported operand type(s) for /: 'NoneType' and 'int'"
  end.

Definition payload (action key : string) (target : Z) : json :=
  JObj [("action", JStr action); (key, JNum target)].

Definition job_line (nm : string) (jid : Z) : string :=
  nm ++ LF ++ "Job ID: `" ++ str_int jid ++ "`".

(** *** /jobs *)

Definition send_job_list : M unit :=
  listed <- ws_jobs_list ;;
  let jobs := map (fun j => (name (settings j), job_id j)) (filter owned listed) in
  match jobs with
  | [] => send_message "No jobs found for your account." None false
  | _ =>
    send_message ("📋 Found " ++ str_int (Z.of_nat (List.length jobs))
                  ++ " job(s). Tap to check today’s run:") None false ;;
    for_each jobs (fun j =>
      let kb := mkButton "📊 Check Status"
                         (json_dumps (payload "check_status" "job_id" (snd j))) in
      send_message (job_line (fst j) (snd j)) (Some kb) false)
  end.

Definition jobs_cmd : M unit := send_job_list.

(** *** /failed and the scheduled scan *)

Definition failed_row (job : Job) (run : Run) : FailedRow :=
  mkFailedRow (name (settings job)) (run_id run) (start_time run) (end_time run).

(** The test of the inner loop. *)
Definition failed_today (today : Z) (run : Run) : bool :=
  match result_state (state run) with
  | Some FAILED => on_date today (end_time run)
  | _ => false
  end.

Definition send_failed_row (f : FailedRow) : M unit :=
  print f ;;
  let kb := mkButton ("🔧 Repair " ++ take_chars 25 (f_job f))
                     (json_dumps (payload "repair" "run_id" (f_run_id f))) in
  start <- strftime_HHMM (f_start f) ;;
  end_ <- strftime_HHMM (f_end f) ;;
  send_message ("🔴 **" ++ f_job f ++ "**" ++ LF ++ "`" ++ str_int (f_run_id f)
                ++ "`" ++ LF ++ "⏰ " ++ start ++ " – " ++ end_)
               (Some kb) true.

Definition databricks_job_notification : M unit :=
  today <- date_today ;;
  listed <- ws_jobs_list ;;
  failed <- for_acc listed (fun failed job =>
      if negb (owned job) then ret failed
      else
        runs <- ws_jobs_list_runs (JNum (job_id job)) ;;
        for_acc runs (fun failed run =>
            if failed_today today run
            then ret (failed ++ [failed_row job run])%list
            else ret failed) failed) [] ;;
  match failed with
  | [] => send_message "🎉 No failures today!" None false
  | _ =>
    send_message ("❌ Found " ++ str_int (Z.of_nat (List.length failed))
                  ++ " failure(s) today:") None false ;;
    for_each failed send_failed_row
  end.

Definition failed_cmd : M unit := databricks_job_notification.

(** *** /pause *)

(** [v != s] for a string [s]: a member of the enumeration and [None] are
    never equal to a string. *)
Definition ne_str (v : PauseValue) (s : string) : bool :=
  match v with
  | Text t => negb (String.eqb t s)
  | Member _ => true
  | Unset => true
  end.

(** [sch and sch.pause_status != "PAUSED"] *)
Definition can_pause (sch : option CronSchedule) : bool :=
  match sch with
  | Some s => ne_str (pause_status s) "PAUSED"
  | None => false
  end.

Definition send_pause_job_list : M unit :=
  listed <- ws_jobs_list ;;
  let jobs := map (fun j => (name (settings j), job_id j, schedule (settings j)))
                  (filter owned listed) in
  match jobs with
  | [] => send_message "No jobs found for your account." None false
  | _ =>
    send_message ("📋 Found " ++ str_int (Z.of_nat (List.length jobs))
                  ++ " job(s). Tap to pause / resume schedule:") None false ;;
    for_each jobs (fun j =>
      let '(nm, jid, sch) := j in
      let '(action, label) :=
        if can_pause sch then ("pause", "⏸ Pause") else ("resume", "▶️ Resume") in
      let kb := mkButton label (json_dumps (payload action "job_id" jid)) in
      send_message (job_line nm jid) (Some kb) false)
  end.

Definition pause_cmd : M unit := send_pause_job_list.

(** [sch.pause_status = v] for a string [v] *)
Definition set_pause_status (sch : CronSchedule) (v : string) : CronSchedule :=
  mkCronSchedule (Text v) (quartz_cron_expression sch) (timezone_id sch).

Definition toggle_job_schedule (job_id : json) (pause : bool) : M unit :=
  try_except
    (job <- ws_jobs_get job_id ;;
     let settings := settings job in
     match schedule settings with
     | None =>
       send_message ("Job `" ++ py_str job_id ++ "` has no schedule.") None false
     | Some sch =>
       let settings :=
         mkJobSettings (name settings)
           (Some (set_pause_status sch (if pause then "PAUSED" else "UNPAUSED")))
           (other_settings settings) in
       ws_jobs_update job_id settings ;;
       let verb := if pause then "paused" else "resumed" in
       send_message ("✅ Schedule for `" ++ name settings ++ "` has been "
                     ++ verb ++ ".") None false
     end)
    (fun e => send_message ("❌ Could not toggle schedule: " ++ e) None false).

(** *** Status checker (used by /jobs) *)

(** Sort key of [max]: the runs it is applied to passed the test of
    [on_date], so their start time is present. *)
Definition start_key (r : Run) : Z :=
  match start_time r with
  | Some ms => ms
  | None => 0
  end.

(** [max(best :: rest, key=lambda x: x.start_time)]: the first of the runs
    with the greatest key. *)
Fixpoint max_by_start (best : Run) (rest : list Run) : Run :=
  match rest with
  | [] => best
  | r :: rest' =>
    max_by_start (if (start_key best <? start_key r)%Z then r else best) rest'
  end.

Definition or_empty (s : option string) : string :=
  match s with
  | Some t => t
  | None => EmptyString
  end.

Definition status_line (badge nm verdict dur : string) (rid : Z) : string :=
  badge ++ " **" ++ nm ++ "**" ++ LF ++ verdict ++ LF ++ "⏰ " ++ dur ++ LF
  ++ "Run `" ++ str_int rid ++ "`".

Definition check_job_today_status (job_id : json) : M unit :=
  today <- date_today ;;
  try_except
    (job <- ws_jobs_get job_id ;;
     runs <- ws_jobs_list_runs job_id ;;
     let runs_today := filter (fun r => on_date today (start_time r)) runs in
     match runs_today with
     | [] =>
       send_message ("📅 **" ++ name (settings job) ++ "**" ++ LF ++ "No runs today.")
                    None true
     | r0 :: rest =>
       let r := max_by_start r0 rest in
       start <- strftime_HHMM (start_time r) ;;
       dur <- (if truthy (end_time r)
               then end_ <- strftime_HHMM (end_time r) ;; ret (start ++ " – " ++ end_)
               else ret ("Started " ++ start ++ " (still running)")) ;;
       match result_state (state r) with
       | Some SUCCESS =>
         send_message (status_line "✅" (name (settings job)) "SUCCESS" dur (run_id r))
                      None true
       | Some FAILED =>
         let kb := mkButton "🔧 Repair"
                            (json_dumps (payload "repair" "run_id" (run_id r))) in
         send_message (status_line "❌" (name (settings job)) "FAILED" dur (run_id r)
                       ++ LF ++ or_empty (state_message (state r)))
                      (Some kb) true
       | _ =>
         send_message (status_line "🔄" (name (settings job)) "RUNNING" dur (run_id r))
                      None true
       end
     end)
    (fun e => send_message ("❌ Error: " ++ e) None false).

(** *** Repair helper *)

Definition repair_databricks_job (run_id : json) : M unit :=
  try_except
    (resp <- ws_jobs_repair_run run_id ;;
     send_message ("✅ Repair started!" ++ LF ++ "Original: `" ++ py_str run_id
                   ++ "`" ++ LF ++ "Repair run: `" ++ py_str (wait_run_id resp)
                   ++ "`")
                  None false)
    (fun e => send_message ("❌ Repair failed: " ++ e) None false).

(** *** Callback dispatcher *)

(** [data.get(key)]: only a [dict] has the method; a missing key gives
    [None]. *)
Fixpoint items_get (items : list (string * json)) (key : string) : option json :=
  match items with
  | [] => None
  | (k, v) :: items' => if String.eqb k key then Some v else items_get items' key
  end.

Definition dict_get (d : json) (key : string) : M json :=
  match d with
  | JObj items =>
    match items_get items key with
    | Some v => ret v
    | None => ret JNull
    end
  | _ => raise "object has no attribute 'get'"
  end.

(** [data[key]] on a value whose [get] has already succeeded. *)
Definition dict_item (d : json) (key : string) : M json :=
  match d with
  | JObj items =>
    match items_get items key with
    | Some v => ret v
    | None => raise key
    end
  | _ => raise "object is not subscriptable"
  end.

(** [action == s] *)
Definition is_str (v : json) (s : string) : bool :=
  match v with
  | JStr t => String.eqb t s
  | _ => false
  end.

Definition handle_callback (call : CallbackQuery) : M unit :=
  try_except
    (data <- match json_loads (data call) with
             | Some v => ret v
             | None => raise "JSONDecodeError"
             end ;;
     action <- dict_get data "action" ;;
     if is_str action "check_status" then
       job_id <- dict_item data "job_id" ;;
       answer_callback_query (id call) "🔍 Checking…" ;;
       check_job_today_status job_id
     else if is_str action "repair" then
       run_id <- dict_item data "run_id" ;;
       answer_callback_query (id call) "🔧 Repairing…" ;;
       repair_databricks_job run_id
     else if is_str action "pause" then
       job_id <- dict_item data "job_id" ;;
       answer_callback_query (id call) "⏸ Pausing…" ;;
       toggle_job_schedule job_id true
     else if is_str action "resume" then
       job_id <- dict_item data "job_id" ;;
       answer_callback_query (id call) "▶️ Resuming…" ;;
       toggle_job_schedule job_id false
     else ret tt)
    (fun e =>
       answer_callback_query (id call) "❌ Error processing request" ;;
       logging_exception "callback error").

End Bot.

(** ** Vocabulary of the properties *)

(** The chat service accepts every call. *)
Definition chat_ok (w : World) : Prop := forall n, chat_fault w n = None.

(** The calendar date, in the configured zone, of an instant. *)
Definition zone_date (TZ : Z -> Z) (ms : Z) : Z := local_date (TZ ms) ms.

(** Every request a computation adds to the trace satisfies [P], whatever the
    journal it starts from and however it ends. *)
Definition emits {A} (P : Event -> Prop) (m : M A) (w : World) : Prop :=
  forall s, exists new, trace (snd (m w s)) = (trace s ++ new)%list /\ Forall P new.

(** The journal [s] after the calls, requests and lines of [d] were added. *)
Definition after (s d : Journal) : Journal :=
  mkJournal (chat_calls d + chat_calls s) (trace s ++ trace d) (console s ++ console d).

(** A computation does the same in two worlds: from any two journals it ends
    with the same result and adds the same to each. *)
Definition same_in {A} (m : M A) (w1 w2 : World) : Prop :=
  forall s1 s2, exists r d, m w1 s1 = (r, after s1 d) /\ m w2 s2 = (r, after s2 d).

(** What a listing may put on the trace: a message without a button that
    names no job, or a message about a job that the job service lists with
    the operator as its creator, whose button targets that job or a run
    listed under it. *)
Definition listing_event (EMAIL : string) (json_dumps : json -> string)
    (w : World) (ev : Event) : Prop :=
  match ev with
  | Sent body None _ =>
    body = "No jobs found for your account."
    \/ body = "🎉 No failures today!"
    \/ exists n,
         body = "📋 Found " ++ str_int n ++ " job(s). Tap to check today’s run:"
         \/ body = "📋 Found " ++ str_int n ++ " job(s). Tap to pause / resume schedule:"
         \/ body = "❌ Found " ++ str_int n ++ " failure(s) today:"
  | Sent body (Some kb) _ =>
    exists js j,
      jobs_list w = Ok js /\ In j js /\ creator_user_name j = Some EMAIL
      /\ ((body = name (settings j) ++ LF ++ "Job ID: `" ++ str_int (job_id j) ++ "`"
           /\ exists action,
                callback_data kb
                = json_dumps (JObj [("action", JStr action);
                                    ("job_id", JNum (job_id j))]))
          \/ (exists rs r start end_,
                jobs_list_runs w (JNum (job_id j)) = Ok rs /\ In r rs
                /\ body = "🔴 **" ++ name (settings j) ++ "**" ++ LF ++ "`"
                          ++ str_int (run_id r) ++ "`" ++ LF ++ "⏰ " ++ start
                          ++ " – " ++ end_
                /\ callback_data kb
                   = json_dumps (JObj [("action", JStr "repair");
                                       ("run_id", JNum (run_id r))])))
  | _ => False
  end.

(** The job service has an update request for [target] on the trace. *)
Definition updated (target : json) (t : list Event) : Prop :=
  exists st, In (Updated target st) t.

(** The acknowledgements on a trace. *)
Definition is_answer (ev : Event) : bool :=
  match ev with
  | Answered _ _ => true
  | _ => false
  end.

Definition acknowledgements (t : list Event) : nat :=
  List.length (filter is_answer t).

(** The runs the job service lists for a job. *)
Definition runs_listed (w : World) (j : Job) : list Run :=
  match jobs_list_runs w (JNum (job_id j)) with
  | Ok rs => rs
  | Raise _ => []
  end.

(** The failed runs of the operator's jobs that ended on the date the scan
    reads from the clock, in the order of the listings. *)
Definition failures_today (EMAIL : string) (TZ : Z -> Z) (w : World)
    (js : list Job) : list FailedRow :=
  flat_map (fun j =>
              map (failed_row j)
                  (filter (failed_today TZ (local_date (host_utcoffset w) (now w)))
                          (runs_listed w j)))
           (filter (owned EMAIL) js).

(** ** A concrete deployment, for the examples

    The operator is [ops@example.com] and the configured zone is at +05:30,
    the offset of Asia/Kolkata at every instant since 1945. *)

Definition operator : string := "ops@example.com".

Definition IST : Z -> Z := fun _ => 19800.

Definition dquote : string := String "034"%char EmptyString.

(** The text [json.dumps] gives for the payloads the bot mints. *)
Definition dumps (v : json) : string :=
  match v with
  | JObj [(k1, JStr a); (k2, JNum n)] =>
    "{" ++ dquote ++ k1 ++ dquote ++ ": " ++ dquote ++ a ++ dquote ++ ", "
    ++ dquote ++ k2 ++ dquote ++ ": " ++ str_int n ++ "}"
  | _ => "null"
  end.

(** A decoder that knows one text. *)
Definition loads_as (d : string) (v : json) : string -> option json :=
  fun s => if String.eqb s d then Some v else None.

Definition str_of (v : json) : string :=
  match v with
  | JNum z => str_int z
  | JStr s => s
  | _ => "None"
  end.

(** A payload no button of the bot carries. *)
Definition delete_payload : json :=
  JObj [("action", JStr "delete"); ("job_id", JNum 7)].

Definition nightly : Job :=
  mkJob 7 (Some operator)
        (mkJobSettings "nightly"
           (Some (mkCronSchedule (Member UNPAUSED) "0 0 2 * * ?" "Asia/Kolkata"))
           [("max_concurrent_runs", JNum 1)]).

Definition adhoc : Job := mkJob 8 (Some operator) (mkJobSettings "adhoc" None []).

Definition foreign : Job :=
  mkJob 9 (Some "someone@example.com")
        (mkJobSettings "billing"
           (Some (mkCronSchedule (Member UNPAUSED) "0 0 3 * * ?" "UTC")) []).

(** 2024-01-01 20:00 UTC, which is 2024-01-02 01:30 at +05:30. *)
Definition clock_0130 : Z := 1704139200000.
(** 2024-01-01 18:29 UTC, which is 2024-01-01 23:59 at +05:30. *)
Definition clock_2359 : Z := 1704133740000.
(** 2024-01-01 19:00 UTC, which is 2024-01-02 00:30 at +05:30. *)
Definition clock_0030 : Z := 1704135600000.
(** 2024-01-01 19:30 UTC, which is 2024-01-02 01:00 at +05:30. *)
Definition clock_0100 : Z := 1704137400000.

Definition run_of (rid : Z) (st en : option Z) (r : option RunResultState) : Run :=
  mkRun rid st en (mkRunState r None).

Definition service (jobs : list Job) (runs : list Run) (offset : Z) : World :=
  mkWorld (Ok jobs)
          (fun _ => Ok runs)
          (fun target =>
             match find (fun j => match target with
                                  | JNum z => (job_id j =? z)%Z
                                  | _ => false
                                  end) jobs with
             | Some j => Ok j
             | None => Raise "Job does not exist."
             end)
          (fun _ _ => Ok tt)
          (fun _ => Ok 501)
          (fun _ => None)
          clock_0130 offset.

(** A host whose local time is UTC; one run of [nightly] failed, started at
    23:59 and ended at 00:30 in the configured zone. *)
Definition utc_host : World :=
  service [nightly] [run_of 41 (Some clock_2359) (Some clock_0030) (Some FAILED)] 0.

(** A host whose local time is the configured zone; the one run of today was
    cancelled at 01:00. *)
Definition zone_host : World :=
  service [nightly; adhoc; foreign]
          [run_of 42 (Some clock_0030) (Some clock_0100) (Some CANCELED)] 19800.

(** As [zone_host], but the run of today failed; the job service lists it
    under every job. *)
Definition failing_host : World :=
  service [nightly; foreign]
          [run_of 43 (Some clock_0030) (Some clock_0100) (Some FAILED)] 19800.

(** The same service half an hour later. *)
Definition later (w : World) : World :=
  mkWorld (jobs_list w) (jobs_list_runs w) (jobs_get w) (jobs_update w)
          (jobs_repair_run w) (chat_fault w) (now w + 1800000) (host_utcoffset w).

(** The job service is down and the second call of the chat service times
    out. *)
Definition flaky : World :=
  mkWorld (Raise "Connection refused") (fun _ => Raise "Connection refused")
          (fun _ => Raise "Connection refused") (fun _ _ => Raise "Connection refused")
          (fun _ => Raise "Connection refused")
          (fun n => if Nat.eqb n 1 then Some "Read timed out" else None)
          clock_0130 19800.

(** The job service is down. *)
Definition outage : World :=
  mkWorld (Raise "Connection refused") (fun _ => Raise "Connection refused")
          (fun _ => Raise "Connection refused") (fun _ _ => Raise "Connection refused")
          (fun _ => Raise "Connection refused") (fun _ => None) clock_0130 19800.

(** A host in the configured zone; the job service lists one run that
    started yesterday and one that has not started. *)
Definition quiet_host : World :=
  service [nightly; adhoc]
          [run_of 40 (Some clock_2359) None None; run_of 39 None None None] 19800.

(** A job service that answers every read and rejects every update. *)
Definition read_only_host : World :=
  mkWorld (Ok [nightly]) (fun _ => Ok []) (fun _ => Ok nightly)
          (fun _ _ => Raise "Permission denied") (fun _ => Raise "Permission denied")
          (fun _ => None) clock_0130 19800.

(** A helper ends normally and acknowledges nothing. *)
Definition returns_quietly (m : M unit) (w : World) : Prop :=
  forall s, exists s' new,
    m w s = (Ok tt, s') /\ trace s' = (trace s ++ new)%list
    /\ acknowledgements new = 0%nat.

(** The four actions of the dispatcher: the key of the target, the notice of
    the acknowledgement and the helper that is called. *)
Definition dispatch_table (TZ : Z -> Z) (json_dumps : json -> string)
    (py_str : json -> string)
  : list (string * (string * string * (json -> M unit))) :=
  [("check_status", ("job_id", "🔍 Checking…", check_job_today_status TZ json_dumps));
   ("repair", ("run_id", "🔧 Repairing…", repair_databricks_job py_str));
   ("pause", ("job_id", "⏸ Pausing…", fun j => toggle_job_schedule py_str j true));
   ("resume", ("job_id", "▶️ Resuming…", fun j => toggle_job_schedule py_str j false))].

(** What the dispatcher leaves when it refuses a payload. *)
Definition refused (call : CallbackQuery) (s : Journal) : Journal :=
  note (LoggedException "callback error")
       (record (Answered (id call) "❌ Error processing request") (tick_chat s)).

(** The value [data.get("action")] gives for a dictionary. *)
Definition action_of (items : list (string * json)) : json :=
  match items_get items "action" with
  | Some v => v
  | None => JNull
  end.

(** A request to the job service on the trace targets what the payload of
    the call names: an update its [job_id], a repair its [run_id]. *)
Definition targets_payload (json_loads : string -> option json)
    (call : CallbackQuery) (ev : Event) : Prop :=
  match ev with
  | Updated t _ =>
    exists items, json_loads (data call) = Some (JObj items)
                  /\ items_get items "job_id" = Some t
  | Repaired t =>
    exists items, json_loads (data call) = Some (JObj items)
                  /\ items_get items "run_id" = Some t
  | _ => True
  end.

(** A message, or a request to the job service that [allowed] admits. *)
Definition message_or (allowed : Event -> Prop) (ev : Event) : Prop :=
  match ev with
  | Sent _ _ _ => True
  | Answered _ _ => False
  | _ => allowed ev
  end.

(** The message /jobs sends for a job. *)
Definition job_row (json_dumps : json -> string) (j : Job) : Event :=
  Sent (job_line (name (settings j)) (job_id j))
       (Some (mkButton "📊 Check Status"
                (json_dumps (payload "check_status" "job_id" (job_id j)))))
       false.

(** The message /pause sends for a job. *)
Definition pause_row (json_dumps : json -> string) (j : Job) : Event :=
  Sent (job_line (name (settings j)) (job_id j))
       (Some (mkButton
                (if can_pause (schedule (settings j)) then "⏸ Pause" else "▶️ Resume")
                (json_dumps
                   (payload (if can_pause (schedule (settings j))
                             then "pause" else "resume")
                            "job_id" (job_id j)))))
       false.

(** The message the scan sends for a failed run whose times are present. *)
Definition failure_message (TZ : Z -> Z) (json_dumps : json -> string)
    (f : FailedRow) : Event :=
  Sent ("🔴 **" ++ f_job f ++ "**" ++ LF ++ "`" ++ str_int (f_run_id f) ++ "`" ++ LF
        ++ "⏰ "
        ++ match f_start f with
           | Some ms => clock_HHMM (TZ ms) ms
           | None => EmptyString
           end
        ++ " – "
        ++ match f_end f with
           | Some ms => clock_HHMM (TZ ms) ms
           | None => EmptyString
           end)
       (Some (mkButton ("🔧 Repair " ++ take_chars 25 (f_job f))
                (json_dumps (payload "repair" "run_id" (f_run_id f)))))
       true.

(** Only the job of someone else is listed. *)
Definition strangers_only : World := service [foreign] [] 19800.

(** The runs of [nightly] are listed, those of [adhoc] are not. *)
Definition half_listed : World :=
  mkWorld (Ok [nightly; adhoc])
          (fun target =>
             match target with
             | JNum 7 => Ok [run_of 43 (Some clock_0030) (Some clock_0100) (Some FAILED)]
             | _ => Raise "Read timed out"
             end)
          (fun _ => Ok nightly) (fun _ _ => Ok tt) (fun _ => Ok 501)
          (fun _ => None) clock_0130 19800.

(** Two runs failed today; the second has no start time. *)
Definition startless : World :=
  service [nightly]
          [run_of 43 (Some clock_0030) (Some clock_0100) (Some FAILED);
           run_of 44 None (Some clock_0100) (Some FAILED)] 19800.

(** A job the job service lists with the operator as its creator. *)
Definition created_by (EMAIL : string) (j : Job) : bool :=
  match creator_user_name j with
  | Some u => if string_dec u EMAIL then true else false
  | None => false
  end.

(** A run that failed and whose end, in the configured zone, is on the date
    with day number [today]. *)
Definition failed_on (TZ : Z -> Z) (today : Z) (r : Run) : bool :=
  match result_state (state r), end_time r with
  | Some FAILED, Some ms =>
    negb (ms =? 0)%Z && ((ms + TZ ms * 1000) / 86400000 =? today)%Z
  | _, _ => false
  end.

(** The failed runs of today under the operator's jobs, each with its job,
    in the order of the listings; today is the date on the host's clock. *)
Definition failed_runs_today (EMAIL : string) (TZ : Z -> Z) (w : World)
    (js : list Job) : list (Job * Run) :=
  flat_map (fun j =>
              map (pair j)
                  (filter (failed_on TZ ((now w + host_utcoffset w * 1000) / 86400000))
                          (runs_listed w j)))
           (filter (created_by EMAIL) js).

(** The clock time of a time stamp that is present. *)
Definition shown_time (TZ : Z -> Z) (t : option Z) : string :=
  match t with
  | Some ms => clock_HHMM (TZ ms) ms
  | None => EmptyString
  end.

(** The message the scan owes a failed run of a job. *)
Definition failure_report (TZ : Z -> Z) (json_dumps : json -> string)
    (jr : Job * Run) : Event :=
  Sent ("🔴 **" ++ name (settings (fst jr)) ++ "**" ++ LF ++ "`"
        ++ str_int (run_id (snd jr)) ++ "`" ++ LF ++ "⏰ "
        ++ shown_time TZ (start_time (snd jr)) ++ " – "
        ++ shown_time TZ (end_time (snd jr)))
       (Some (mkButton ("🔧 Repair " ++ take_chars 25 (name (settings (fst jr))))
                (json_dumps (JObj [("action", JStr "repair");
                                   ("run_id", JNum (run_id (snd jr)))]))))
       true.

(** A job of the operator whose schedule the job service reports as paused. *)
Definition weekly : Job :=
  mkJob 10 (Some operator)
        (mkJobSettings "weekly"
           (Some (mkCronSchedule (Member PAUSED) "0 0 4 ? * MON" "Asia/Kolkata")) []).

Definition paused_host : World := service [weekly] [] 19800.

(** The same services at another instant. *)
Definition at_clock (w : World) (t : Z) : World :=
  mkWorld (jobs_list w) (jobs_list_runs w) (jobs_get w) (jobs_update w)
          (jobs_repair_run w) (chat_fault w) t (host_utcoffset w).

(** 2024-01-02 00:30 UTC, which is 2024-01-02 06:00 at +05:30. *)
Definition clock_0600 : Z := 1704155400000.

(** A job name of 27 characters, the first of them of two bytes. *)
Definition long_name : string := "évaluation-des-risques-nuit".

(** * Properties *)

(** ** The monad and the chat service *)

Ltac trace_eq :=
  cbn [trace record tick_chat note];
  repeat rewrite <- app_assoc;
  reflexivity.

Lemma bind_eq {A B} (m : M A) (k : A -> M B) (w : World) (s s' : Journal) (a : A) :
  m w s = (Ok a, s') -> bind m k w s = k a w s'.
Proof. intros H. unfold bind. now rewrite H. Qed.

Lemma bind_raise {A B} (m : M A) (k : A -> M B) (w : World) (s s' : Journal)
    (e : string) :
  m w s = (Raise e, s') -> bind m k w s = (Raise e, s').
Proof. intros H. unfold bind. now rewrite H. Qed.

Lemma chat_call_ok (w : World) (s : Journal) (ev : Event) :
  chat_ok w -> chat_call ev w s = (Ok tt, record ev (tick_chat s)).
Proof.
  intros H. unfold chat_call. now rewrite H.
Qed.

Lemma send_message_ok (w : World) (s : Journal) body kb md :
  chat_ok w ->
  send_message body kb md w s = (Ok tt, record (Sent body kb md) (tick_chat s)).
Proof. apply chat_call_ok. Qed.

Lemma answer_ok (w : World) (s : Journal) cid notice :
  chat_ok w ->
  answer_callback_query cid notice w s
  = (Ok tt, record (Answered cid notice) (tick_chat s)).
Proof. apply chat_call_ok. Qed.

(** ** Calendar dates *)

(** When the host's local time is the configured zone, a present, non-zero
    time stamp passes the date test exactly when its date in the zone is the
    current date in the zone. *)
Lemma on_date_in_zone (TZ : Z -> Z) (w : World) (t : Z) :
  host_utcoffset w = TZ (now w) ->
  t <> 0 ->
  on_date TZ (local_date (host_utcoffset w) (now w)) (Some t) = true
  <-> zone_date TZ t = zone_date TZ (now w).
Proof.
  intros Hhost Ht. unfold on_date, zone_date. rewrite Hhost.
  destruct (Z.eqb_spec t 0) as [E|_]; [contradiction|]. simpl.
  apply Z.eqb_eq.
Qed.

(** C1 (the code departs from the claim).  On a host whose local time is UTC,
    at 01:30 of 2 January in the configured zone, a run that started at 23:59
    of 1 January in the zone and failed at 00:30 of 2 January in the zone is
    taken by the status check for a run of today, and is missing from the
    failure scan: both compare the date of the run in the configured zone with
    the date on the host's clock. *)
Theorem today_is_the_date_on_the_host_clock :
  zone_date IST clock_2359 <> zone_date IST (now utc_host)
  /\ zone_date IST clock_0030 = zone_date IST (now utc_host)
  /\ check_job_today_status IST dumps (JNum 7) utc_host blank
     = (Ok tt,
        mkJournal 1
          [Sent (status_line "❌" "nightly" "FAILED" "23:59 – 00:30" 41 ++ LF)
                (Some (mkButton "🔧 Repair" (dumps (payload "repair" "run_id" 41))))
                true]
          [])
  /\ databricks_job_notification operator IST dumps utc_host blank
     = (Ok tt, mkJournal 1 [Sent "🎉 No failures today!" None false] []).
Proof.
  repeat split; try (vm_compute; reflexivity).
  vm_compute. discriminate.
Qed.

(** ** Failure boundaries *)

(** C4 (the code departs from the claim).  When listing the jobs fails, the
    error leaves /jobs, /failed (which is also the scheduled scan) and /pause
    as an exception, and nothing is sent to the operator. *)
Theorem listing_error_escapes_the_handler
    (EMAIL : string) (TZ : Z -> Z) (json_dumps : json -> string)
    (w : World) (s : Journal) (e : string) :
  jobs_list w = Raise e ->
  jobs_cmd EMAIL json_dumps w s = (Raise e, s)
  /\ failed_cmd EMAIL TZ json_dumps w s = (Raise e, s)
  /\ pause_cmd EMAIL json_dumps w s = (Raise e, s).
Proof.
  intros H.
  unfold jobs_cmd, failed_cmd, pause_cmd, send_job_list, send_pause_job_list,
    databricks_job_notification, bind, date_today, ws_jobs_list.
  rewrite H. auto.
Qed.

Lemma listing_error_escapes_the_handler_witness :
  jobs_list outage = Raise "Connection refused"
  /\ jobs_cmd operator dumps outage blank = (Raise "Connection refused", blank)
  /\ failed_cmd operator IST dumps outage blank = (Raise "Connection refused", blank)
  /\ pause_cmd operator dumps outage blank = (Raise "Connection refused", blank).
Proof.
  split; [reflexivity|].
  apply (listing_error_escapes_the_handler operator IST dumps outage blank).
  reflexivity.
Defined.

(** ** Status check *)

(** C5 (the code departs from the claim).  The one run of today has an end
    time and was cancelled; the status check reports it as RUNNING, with its
    start and end times. *)
Theorem ended_run_is_reported_running :
  on_date IST (local_date (host_utcoffset zone_host) (now zone_host))
          (Some clock_0030) = true
  /\ jobs_list_runs zone_host (JNum 7)
     = Ok [mkRun 42 (Some clock_0030) (Some clock_0100)
                 (mkRunState (Some CANCELED) None)]
  /\ check_job_today_status IST dumps (JNum 7) zone_host blank
     = (Ok tt,
        mkJournal 1
          [Sent (status_line "🔄" "nightly" "RUNNING" "00:30 – 01:00" 42) None true]
          []).
Proof.
  repeat split; vm_compute; reflexivity.
Qed.

(** ** Dispatcher *)

Ltac eval_is_str :=
  repeat match goal with
         | |- context [is_str (JStr ?a) ?b] =>
           let v := eval vm_compute in (is_str (JStr a) b) in
           change (is_str (JStr a) b) with v
         end;
  cbv iota.

Lemma is_str_other (v : json) (a : string) :
  v <> JStr a -> is_str v a = false.
Proof.
  destruct v; simpl; auto.
  intros H. destruct (String.eqb_spec s a); [subst; contradiction|reflexivity].
Qed.

(** A payload that does not decode is acknowledged once, with the error
    notice, and logged; nothing else happens. *)
Lemma malformed_payload_is_acknowledged
    (TZ : Z -> Z) (json_dumps : json -> string)
    (json_loads : string -> option json) (py_str : json -> string)
    (call : CallbackQuery) (w : World) (s : Journal) :
  chat_ok w ->
  json_loads (data call) = None ->
  handle_callback TZ json_dumps json_loads py_str call w s
  = (Ok tt,
     note (LoggedException "callback error")
          (record (Answered (id call) "❌ Error processing request") (tick_chat s))).
Proof.
  intros Hc Hl. unfold handle_callback, try_except, bind. rewrite Hl.
  unfold raise. rewrite answer_ok by assumption. reflexivity.
Qed.

(** C2 (the code departs from the claim).  A payload that decodes to a
    dictionary whose action is none of the four known names leaves the
    dispatcher without any acknowledgement: the journal is unchanged. *)
Theorem unrecognized_action_is_not_acknowledged
    (TZ : Z -> Z) (json_dumps : json -> string)
    (json_loads : string -> option json) (py_str : json -> string)
    (call : CallbackQuery) (w : World) (s : Journal)
    (items : list (string * json)) :
  json_loads (data call) = Some (JObj items) ->
  (forall a, In a ["check_status"; "repair"; "pause"; "resume"] ->
             items_get items "action" <> Some (JStr a)) ->
  handle_callback TZ json_dumps json_loads py_str call w s = (Ok tt, s).
Proof.
  intros Hl Hu. unfold handle_callback, try_except, bind. rewrite Hl.
  unfold ret at 1, dict_get.
  assert (Hf : forall v a, items_get items "action" = Some v ->
                           In a ["check_status"; "repair"; "pause"; "resume"] ->
                           is_str v a = false).
  { intros v a Hv Ha. apply is_str_other. intros ->. exact (Hu a Ha Hv). }
  destruct (items_get items "action") as [v|] eqn:E.
  - unfold ret at 1.
    rewrite (Hf v "check_status"), (Hf v "repair"), (Hf v "pause"),
      (Hf v "resume"); simpl; auto 6.
  - reflexivity.
Qed.

Lemma unrecognized_action_is_not_acknowledged_witness :
  loads_as (dumps delete_payload) delete_payload (dumps delete_payload)
  = Some delete_payload
  /\ handle_callback IST dumps (loads_as (dumps delete_payload) delete_payload)
       str_of (mkCall "cb1" (dumps delete_payload)) zone_host blank
     = (Ok tt, blank).
Proof.
  split; [reflexivity|].
  apply (unrecognized_action_is_not_acknowledged IST dumps
           (loads_as (dumps delete_payload) delete_payload) str_of
           (mkCall "cb1" (dumps delete_payload)) zone_host blank
           [("action", JStr "delete"); ("job_id", JNum 7)]).
  - reflexivity.
  - simpl. intros a [<-|[<-|[<-|[<-|[]]]]]; discriminate.
Defined.

(** When the status check cannot report an error because the chat service
    fails, the exception reaches the dispatcher, which acknowledges the tap a
    second time. *)
Lemma unreported_error_is_acknowledged_twice :
  trace (snd (handle_callback IST dumps
                (loads_as (dumps (payload "check_status" "job_id" 7))
                          (payload "check_status" "job_id" 7))
                str_of (mkCall "cb4" (dumps (payload "check_status" "job_id" 7)))
                flaky blank))
  = [Answered "cb4" "🔍 Checking…"; Answered "cb4" "❌ Error processing request"].
Proof. vm_compute. reflexivity. Qed.

(** ** Pausing and resuming a schedule *)

(** The settings [toggle_job_schedule] sends back. *)
Lemma toggle_job_schedule_run
    (py_str : json -> string) (jid : json) (pause : bool)
    (w : World) (s : Journal) (job : Job) :
  chat_ok w ->
  jobs_get w jid = Ok job ->
  toggle_job_schedule py_str jid pause w s
  = match schedule (settings job) with
    | None =>
      (Ok tt,
       record (Sent ("Job `" ++ py_str jid ++ "` has no schedule.") None false)
              (tick_chat s))
    | Some sch =>
      let pushed :=
        mkJobSettings (name (settings job))
          (Some (set_pause_status sch (if pause then "PAUSED" else "UNPAUSED")))
          (other_settings (settings job)) in
      (Ok tt,
       record (Sent match jobs_update w jid pushed with
                    | Ok _ => "✅ Schedule for `" ++ name (settings job)
                              ++ "` has been "
                              ++ (if pause then "paused" else "resumed") ++ "."
                    | Raise e => "❌ Could not toggle schedule: " ++ e
                    end None false)
              (tick_chat (record (Updated jid pushed) s)))
    end.
Proof.
  intros Hc Hg.
  unfold toggle_job_schedule, try_except, bind, ws_jobs_get. rewrite Hg.
  destruct (schedule (settings job)) as [sch|].
  - unfold ws_jobs_update. cbv zeta.
    destruct (jobs_update w jid _) as [[]|e];
      now rewrite send_message_ok by assumption.
  - now rewrite send_message_ok by assumption.
Qed.



(** C10.  The settings sent with the update are the fetched settings with the
    pause status of the schedule replaced: the name, the remaining settings
    and the other fields of the schedule are those that were fetched. *)
Theorem toggle_changes_only_pause_status
    (py_str : json -> string) (jid : json) (pause : bool)
    (w : World) (s : Journal) (job : Job) (sch : CronSchedule) :
  chat_ok w ->
  jobs_get w jid = Ok job ->
  schedule (settings job) = Some sch ->
  exists pushed sch' report s',
    toggle_job_schedule py_str jid pause w s = (Ok tt, s')
    /\ trace s' = (trace s ++ [Updated jid pushed; Sent report None false])%list
    /\ name pushed = name (settings job)
    /\ other_settings pushed = other_settings (settings job)
    /\ schedule pushed = Some sch'
    /\ quartz_cron_expression sch' = quartz_cron_expression sch
    /\ timezone_id sch' = timezone_id sch
    /\ pause_status sch' = Text (if pause then "PAUSED" else "UNPAUSED").
Proof.
  intros Hc Hg Hs.
  rewrite (toggle_job_schedule_run py_str jid pause w s job Hc Hg), Hs.
  cbv zeta. do 4 eexists. split; [reflexivity|].
  split; [trace_eq|].
  simpl. repeat split; reflexivity.
Qed.

Lemma toggle_changes_only_pause_status_witness :
  exists pushed sch' report s',
    toggle_job_schedule str_of (JNum 7) false zone_host blank = (Ok tt, s')
    /\ trace s' = [Updated (JNum 7) pushed; Sent report None false]
    /\ name pushed = "nightly"
    /\ other_settings pushed = [("max_concurrent_runs", JNum 1)]
    /\ schedule pushed = Some sch'
    /\ quartz_cron_expression sch' = "0 0 2 * * ?"
    /\ timezone_id sch' = "Asia/Kolkata"
    /\ pause_status sch' = Text "UNPAUSED".
Proof.
  exact (toggle_changes_only_pause_status str_of (JNum 7) false zone_host blank
           nightly (mkCronSchedule (Member UNPAUSED) "0 0 2 * * ?" "Asia/Kolkata")
           (fun _ => eq_refl) eq_refl eq_refl).
Defined.

(** ** Loops *)

Lemma for_each_map {A B} (g : A -> B) (body : B -> M unit) (l : list A)
    (w : World) (s : Journal) :
  for_each (map g l) body w s = for_each l (fun x => body (g x)) w s.
Proof.
  revert s. induction l as [|x l IH]; intros s; simpl; [reflexivity|].
  unfold bind. destruct (body (g x) w s) as [[[]|e] s1]; [apply IH|reflexivity].
Qed.

(** A loop whose body sends one message per element sends them in order. *)
Lemma for_each_sends {A} (body : A -> M unit) (ev : A -> Event) (w : World)
    (l : list A) :
  (forall x s0, In x l ->
     exists s1, body x w s0 = (Ok tt, s1) /\ trace s1 = (trace s0 ++ [ev x])%list) ->
  forall s, exists s',
    for_each l body w s = (Ok tt, s') /\ trace s' = (trace s ++ map ev l)%list.
Proof.
  induction l as [|x l IH]; intros Hb s; simpl.
  - exists s. split; [reflexivity|]. now rewrite app_nil_r.
  - destruct (Hb x s (or_introl eq_refl)) as (s1 & E1 & T1).
    destruct (IH (fun y s0 Hy => Hb y s0 (or_intror Hy)) s1) as (s' & E' & T').
    exists s'. unfold bind. rewrite E1. split; [exact E'|].
    rewrite T', T1, <- app_assoc. reflexivity.
Qed.

Lemma Forall2_map_r {A B} (R : A -> B -> Prop) (f : A -> B) (l : list A) :
  (forall x, In x l -> R x (f x)) -> Forall2 R l (map f l).
Proof.
  induction l as [|x l IH]; intros H; simpl; constructor.
  - apply H. now left.
  - apply IH. intros y Hy. apply H. now right.
Qed.

(** ** The failure scan *)

(** The inner loop appends the failed runs of the job, in listing order. *)
Lemma inner_loop_collects (TZ : Z -> Z) (today : Z) (job : Job)
    (runs : list Run) (w : World) (s : Journal) (acc : list FailedRow) :
  for_acc runs
    (fun failed run =>
       if failed_today TZ today run
       then ret (failed ++ [failed_row job run])%list
       else ret failed) acc w s
  = (Ok (acc ++ map (failed_row job) (filter (failed_today TZ today) runs))%list, s).
Proof.
  revert acc. induction runs as [|r runs IH]; intros acc; simpl.
  - now rewrite app_nil_r.
  - unfold bind. destruct (failed_today TZ today r); unfold ret at 1.
    + rewrite IH. simpl. now rewrite <- app_assoc.
    + apply IH.
Qed.

(** The outer loop does so for every job of the operator. *)
Lemma outer_loop_collects (EMAIL : string) (TZ : Z -> Z) (today : Z)
    (w : World) (s : Journal) (js : list Job) :
  (forall j, In j js -> owned EMAIL j = true ->
     exists rs, jobs_list_runs w (JNum (job_id j)) = Ok rs) ->
  forall acc,
    for_acc js
      (fun failed job =>
         if negb (owned EMAIL job) then ret failed
         else
           runs <- ws_jobs_list_runs (JNum (job_id job)) ;;
           for_acc runs
             (fun failed run =>
                if failed_today TZ today run
                then ret (failed ++ [failed_row job run])%list
                else ret failed) failed) acc w s
    = (Ok (acc ++ flat_map
                    (fun j => map (failed_row j)
                                  (filter (failed_today TZ today) (runs_listed w j)))
                    (filter (owned EMAIL) js))%list, s).
Proof.
  induction js as [|j js IH]; intros Hr acc.
  - simpl. now rewrite app_nil_r.
  - assert (Hr' : forall j', In j' js -> owned EMAIL j' = true ->
                    exists rs, jobs_list_runs w (JNum (job_id j')) = Ok rs)
      by (intros j' Hj'; apply Hr; now right).
    cbn [for_acc filter]. destruct (owned EMAIL j) eqn:Ho; cbn [negb].
    + destruct (Hr j (or_introl eq_refl) Ho) as (rs & Ers).
      erewrite bind_eq.
      2:{ erewrite bind_eq; [apply inner_loop_collects|].
          unfold ws_jobs_list_runs. rewrite Ers. reflexivity. }
      rewrite (IH Hr'). cbn [flat_map]. unfold runs_listed at 2. rewrite Ers.
      now rewrite <- app_assoc.
    + erewrite bind_eq by reflexivity. apply (IH Hr').
Qed.

Lemma failures_have_an_end (EMAIL : string) (TZ : Z -> Z) (w : World)
    (js : list Job) (f : FailedRow) :
  In f (failures_today EMAIL TZ w js) -> exists ms, f_end f = Some ms.
Proof.
  unfold failures_today. rewrite in_flat_map. intros (j & _ & Hf).
  apply in_map_iff in Hf. destruct Hf as (r & <- & Hr).
  apply filter_In in Hr. destruct Hr as (_ & Hr).
  unfold failed_today, on_date in Hr. simpl.
  destruct (result_state (state r)) as [[]|]; try discriminate.
  destruct (end_time r) as [ms|]; [now exists ms|discriminate].
Qed.

(** ** The failure scan on a run without a start time *)

(** C6 (the code departs from the claim).  Two failed runs of [nightly]
    ended today; the second has no start time.  The scan finds both, sends
    the count of two and the message of the first, and stops with a type
    error while it builds the message of the second: one message for two
    failed runs. *)
Theorem scan_breaks_off_at_a_startless_failure :
  failed_runs_today operator IST startless [nightly]
  = [(nightly, mkRun 43 (Some clock_0030) (Some clock_0100)
                     (mkRunState (Some FAILED) None));
     (nightly, mkRun 44 None (Some clock_0100) (mkRunState (Some FAILED) None))]
  /\ databricks_job_notification operator IST dumps startless blank
     = (Raise "unsupported operand type(s) for /: 'NoneType' and 'int'",
        mkJournal 2
          [Sent "❌ Found 2 failure(s) today:" None false;
           Sent ("🔴 **nightly**" ++ LF ++ "`43`" ++ LF ++ "⏰ 00:30 – 01:00")
                (Some (mkButton "🔧 Repair nightly"
                         (dumps (JObj [("action", JStr "repair"); ("run_id", JNum 43)]))))
                true]
          [Printed (mkFailedRow "nightly" 43 (Some clock_0030) (Some clock_0100));
           Printed (mkFailedRow "nightly" 44 None (Some clock_0100))]).
Proof.
  split; vm_compute; reflexivity.
Qed.

(** ** Repeating the status check *)

Section SameIn.

Variables w1 w2 : World.

Lemma after_blank (s : Journal) : after s blank = s.
Proof.
  destruct s. unfold after. simpl. now rewrite !app_nil_r.
Qed.

Lemma after_after (s d1 d2 : Journal) : after (after s d1) d2 = after s (after d1 d2).
Proof.
  unfold after. simpl. now rewrite !app_assoc, Nat.add_assoc.
Qed.

Lemma same_ret {A} (a : A) : same_in (ret a) w1 w2.
Proof.
  intros s1 s2. exists (Ok a), blank. now rewrite !after_blank.
Qed.

Lemma same_raise {A} (e : string) : same_in (@raise A e) w1 w2.
Proof.
  intros s1 s2. exists (Raise e), blank. now rewrite !after_blank.
Qed.

Lemma same_bind {A B} (m : M A) (k : A -> M B) :
  same_in m w1 w2 -> (forall a, same_in (k a) w1 w2) -> same_in (bind m k) w1 w2.
Proof.
  intros Hm Hk s1 s2. destruct (Hm s1 s2) as (r & d & E1 & E2).
  unfold bind. rewrite E1, E2. destruct r as [a|e].
  - destruct (Hk a (after s1 d) (after s2 d)) as (r' & d' & E1' & E2').
    exists r', (after d d'). now rewrite E1', E2', !after_after.
  - now exists (Raise e), d.
Qed.

Lemma same_try_except {A} (body : M A) (handler : string -> M A) :
  same_in body w1 w2 -> (forall e, same_in (handler e) w1 w2) ->
  same_in (try_except body handler) w1 w2.
Proof.
  intros Hm Hk s1 s2. destruct (Hm s1 s2) as (r & d & E1 & E2).
  unfold try_except. rewrite E1, E2. destruct r as [a|e].
  - now exists (Ok a), d.
  - destruct (Hk e (after s1 d) (after s2 d)) as (r' & d' & E1' & E2').
    exists r', (after d d'). now rewrite E1', E2', !after_after.
Qed.

Lemma same_chat_call (ev : Event) :
  chat_ok w1 -> chat_ok w2 -> same_in (chat_call ev) w1 w2.
Proof.
  intros H1 H2 s1 s2. exists (Ok tt), (mkJournal 1 [ev] []).
  rewrite !chat_call_ok by assumption.
  unfold after, record, tick_chat. simpl. now rewrite !app_nil_r.
Qed.

Lemma same_strftime (TZ : Z -> Z) (t : option Z) :
  same_in (strftime_HHMM TZ t) w1 w2.
Proof.
  destruct t; [apply same_ret|apply same_raise].
Qed.

End SameIn.

(** Two status checks of a job for which the job service gives the same job
    and the same runs, made on the same date of the host's clock, end the
    same way and add the same message to the trace. *)
Theorem status_check_is_repeatable
    (TZ : Z -> Z) (json_dumps : json -> string) (jid : json) (w1 w2 : World) :
  chat_ok w1 -> chat_ok w2 ->
  jobs_get w1 jid = jobs_get w2 jid ->
  jobs_list_runs w1 jid = jobs_list_runs w2 jid ->
  local_date (host_utcoffset w1) (now w1) = local_date (host_utcoffset w2) (now w2) ->
  same_in (check_job_today_status TZ json_dumps jid) w1 w2.
Proof.
  intros Hc1 Hc2 Hg Hl Hd.
  assert (Hsend : forall body kb md, same_in (send_message body kb md) w1 w2)
    by (intros; now apply same_chat_call).
  unfold check_job_today_status.
  apply same_bind.
  { intros s1 s2. exists (Ok (local_date (host_utcoffset w1) (now w1))), blank.
    unfold date_today. now rewrite !after_blank, Hd. }
  intros today. apply same_try_except; [|intros e; apply Hsend].
  apply same_bind.
  { intros s1 s2. exists (jobs_get w1 jid), blank.
    unfold ws_jobs_get. now rewrite !after_blank, Hg. }
  intros job. apply same_bind.
  { intros s1 s2. exists (jobs_list_runs w1 jid), blank.
    unfold ws_jobs_list_runs. now rewrite !after_blank, Hl. }
  intros runs. destruct (filter _ runs) as [|r0 rest]; [apply Hsend|].
  apply same_bind; [apply same_strftime|]. intros start.
  apply same_bind.
  { destruct (truthy _); [|apply same_ret].
    apply same_bind; [apply same_strftime|]. intros end_. apply same_ret. }
  intros dur.
  destruct (result_state _) as [[]|]; apply Hsend.
Qed.

Lemma status_check_is_repeatable_witness :
  same_in (check_job_today_status IST dumps (JNum 7)) zone_host (later zone_host).
Proof.
  apply (status_check_is_repeatable IST dumps (JNum 7) zone_host (later zone_host));
    try reflexivity; intros n; reflexivity.
Defined.

(** ** Ownership *)

Lemma owned_creator (EMAIL : string) (j : Job) :
  owned EMAIL j = true <-> creator_user_name j = Some EMAIL.
Proof.
  unfold owned. destruct (creator_user_name j) as [u|].
  - rewrite String.eqb_eq. split; [now intros ->|now intros [= ->]].
  - split; discriminate.
Qed.

Section Emits.

Variable P : Event -> Prop.
Variable w : World.

Lemma emits_silent {A} (m : M A) :
  (forall s, trace (snd (m w s)) = trace s) -> emits P m w.
Proof.
  intros H s. exists []. rewrite H, app_nil_r. now split.
Qed.

Lemma emits_bind {A B} (m : M A) (k : A -> M B) :
  emits P m w ->
  (forall a s s', m w s = (Ok a, s') -> emits P (k a) w) ->
  emits P (bind m k) w.
Proof.
  intros Hm Hk s. destruct (Hm s) as (n1 & T1 & F1). unfold bind.
  destruct (m w s) as [[a|e] s1] eqn:E; simpl in T1.
  - destruct (Hk a s s1 E s1) as (n2 & T2 & F2).
    exists (n1 ++ n2)%list. rewrite T2, T1, app_assoc. split; [reflexivity|].
    apply Forall_app. now split.
  - now exists n1.
Qed.

Lemma emits_chat_call (ev : Event) : P ev -> emits P (chat_call ev) w.
Proof.
  intros H s. unfold chat_call. destruct (chat_fault w (chat_calls s)).
  - exists []. simpl. rewrite app_nil_r. now split.
  - exists [ev]. simpl. split; [reflexivity|]. now constructor.
Qed.

Lemma emits_for_each {A} (l : list A) (body : A -> M unit) :
  (forall x, In x l -> emits P (body x) w) -> emits P (for_each l body) w.
Proof.
  induction l as [|x l IH]; intros H; simpl.
  - apply emits_silent. reflexivity.
  - apply emits_bind; [apply H; now left|].
    intros _ _ _ _. apply IH. intros y Hy. apply H. now right.
Qed.

End Emits.

(** The rows the scan has gathered come from runs listed under jobs of the
    operator, and gathering them leaves the journal as it was. *)
Lemma outer_loop_rows (EMAIL : string) (TZ : Z -> Z) (today : Z) (w : World)
    (s : Journal) (all js : list Job) :
  let row_ok f :=
    exists j rs r,
      In j all /\ creator_user_name j = Some EMAIL
      /\ jobs_list_runs w (JNum (job_id j)) = Ok rs /\ In r rs /\ f = failed_row j r in
  incl js all ->
  forall acc, Forall row_ok acc ->
  exists res,
    for_acc js
      (fun failed job =>
         if negb (owned EMAIL job) then ret failed
         else
           runs <- ws_jobs_list_runs (JNum (job_id job)) ;;
           for_acc runs
             (fun failed run =>
                if failed_today TZ today run
                then ret (failed ++ [failed_row job run])%list
                else ret failed) failed) acc w s
    = (res, s)
    /\ forall fs, res = Ok fs -> Forall row_ok fs.
Proof.
  intros row_ok. induction js as [|j js IH]; intros Hin acc Hacc.
  - exists (Ok acc). split; [reflexivity|]. now intros fs [= <-].
  - assert (Hin' : incl js all) by (intros x Hx; apply Hin; now right).
    cbn [for_acc]. destruct (owned EMAIL j) eqn:Ho; cbn [negb].
    + destruct (jobs_list_runs w (JNum (job_id j))) as [rs|e] eqn:Ers.
      * erewrite bind_eq.
        2:{ erewrite bind_eq; [apply inner_loop_collects|].
            unfold ws_jobs_list_runs. now rewrite Ers. }
        apply (IH Hin'). apply Forall_app. split; [exact Hacc|].
        apply Forall_forall. intros f Hf. apply in_map_iff in Hf.
        destruct Hf as (r & <- & Hr). apply filter_In in Hr.
        exists j, rs, r. repeat split; try tauto.
        -- apply Hin. now left.
        -- now apply owned_creator.
      * exists (Raise e). split; [|discriminate].
        erewrite bind_raise; [reflexivity|].
        erewrite bind_raise; [reflexivity|].
        unfold ws_jobs_list_runs. now rewrite Ers.
    + erewrite bind_eq by reflexivity. now apply (IH Hin').
Qed.

(** C3 (amended).  Whatever the services answer, the three listings put on
    the trace only messages without a button that name no job, and messages
    about a job listed with the operator as its creator, whose button targets
    that job or a run listed under it; they request no update and no
    repair. *)
Theorem listings_show_only_owned_jobs
    (EMAIL : string) (TZ : Z -> Z) (json_dumps : json -> string) (w : World) :
  emits (listing_event EMAIL json_dumps w) (send_job_list EMAIL json_dumps) w
  /\ emits (listing_event EMAIL json_dumps w) (send_pause_job_list EMAIL json_dumps) w
  /\ emits (listing_event EMAIL json_dumps w)
           (databricks_job_notification EMAIL TZ json_dumps) w.
Proof.
  assert (Hlist : forall listed (s s' : Journal),
            ws_jobs_list w s = (Ok listed, s') -> jobs_list w = Ok listed)
    by (unfold ws_jobs_list; now intros listed s s' [= -> _]).
  repeat split.
  - unfold send_job_list. apply emits_bind; [now apply emits_silent|].
    intros listed s s' E%Hlist.
    destruct (map _ (filter (owned EMAIL) listed)) as [|t0 ts] eqn:Em.
    + apply emits_chat_call. simpl. now left.
    + rewrite <- Em. clear Em t0 ts. apply emits_bind.
      * apply emits_chat_call. simpl. right. right. eexists. left. reflexivity.
      * intros _ _ _ _. apply emits_for_each. intros x Hx.
        apply in_map_iff in Hx. destruct Hx as (j & <- & Hj).
        apply filter_In in Hj. destruct Hj as (Hj & Ho%owned_creator).
        apply emits_chat_call. simpl. exists listed, j. repeat split; auto.
        left. split; [reflexivity|]. now eexists.
  - unfold send_pause_job_list. apply emits_bind; [now apply emits_silent|].
    intros listed s s' E%Hlist.
    destruct (map _ (filter (owned EMAIL) listed)) as [|t0 ts] eqn:Em.
    + apply emits_chat_call. simpl. now left.
    + rewrite <- Em. clear Em t0 ts. apply emits_bind.
      * apply emits_chat_call. simpl. right. right. eexists. right. left. reflexivity.
      * intros _ _ _ _. apply emits_for_each. intros x Hx.
        apply in_map_iff in Hx. destruct Hx as (j & <- & Hj).
        apply filter_In in Hj. destruct Hj as (Hj & Ho%owned_creator).
        cbv beta iota zeta.
        destruct (can_pause (schedule (settings j)));
          apply emits_chat_call; simpl; exists listed, j; repeat split; auto;
          left; (split; [reflexivity|]); now eexists.
  - unfold databricks_job_notification.
    apply emits_bind; [now apply emits_silent|]. intros today _ _ _.
    apply emits_bind; [now apply emits_silent|]. intros listed s s' E%Hlist.
    apply emits_bind.
    + apply emits_silent. intros s0.
      destruct (outer_loop_rows EMAIL TZ today w s0 listed listed (incl_refl _) []
                  (Forall_nil _)) as (res & -> & _).
      reflexivity.
    + intros failed s0 s0' Ef.
      destruct (outer_loop_rows EMAIL TZ today w s0 listed listed (incl_refl _) []
                  (Forall_nil _)) as (res & Er & Hrows).
      rewrite Er in Ef. injection Ef as -> _.
      specialize (Hrows failed eq_refl). clear Er.
      destruct failed as [|f0 fs] eqn:Efailed.
      * apply emits_chat_call. simpl. right. now left.
      * rewrite <- Efailed in *. clear Efailed f0 fs. apply emits_bind.
        -- apply emits_chat_call. simpl. right. right. eexists. right. right.
           reflexivity.
        -- intros _ _ _ _. apply emits_for_each. intros f Hf.
           rewrite Forall_forall in Hrows.
           destruct (Hrows f Hf) as (j & rs & r & Hj & Ho & Hrs & Hr & ->).
           unfold send_failed_row.
           apply emits_bind; [now apply emits_silent|]. intros _ _ _ _.
           apply emits_bind;
             [apply emits_silent; intros s1; simpl; now destruct (start_time r)|].
           intros start _ _ _.
           apply emits_bind;
             [apply emits_silent; intros s1; simpl; now destruct (end_time r)|].
           intros end_ _ _ _.
           apply emits_chat_call. simpl. exists listed, j. repeat split; auto.
           right. exists rs, r, start, end_. repeat split; auto.
Qed.

(** C3 (as stated, refuted).  The job [billing] was created by someone else.
    A [pause] payload that carries its id makes the dispatcher request an
    update of it, and a [check_status] payload that carries its id makes the
    dispatcher report its failed run, by name, with a button to repair that
    run. *)
Lemma dispatcher_updates_a_foreign_job :
  creator_user_name foreign <> Some operator
  /\ jobs_get zone_host (JNum 9) = Ok foreign
  /\ updated (JNum 9)
       (trace (snd (handle_callback IST dumps
                      (loads_as (dumps (payload "pause" "job_id" 9))
                                (payload "pause" "job_id" 9))
                      str_of (mkCall "cb3" (dumps (payload "pause" "job_id" 9)))
                      zone_host blank)))
  /\ jobs_get failing_host (JNum 9) = Ok foreign
  /\ handle_callback IST dumps
       (loads_as (dumps (payload "check_status" "job_id" 9))
                 (payload "check_status" "job_id" 9))
       str_of (mkCall "cb10" (dumps (payload "check_status" "job_id" 9)))
       failing_host blank
     = (Ok tt,
        mkJournal 2
          [Answered "cb10" "🔍 Checking…";
           Sent ("❌ **billing**" ++ LF ++ "FAILED" ++ LF ++ "⏰ 00:30 – 01:00" ++ LF
                 ++ "Run `43`" ++ LF)
                (Some (mkButton "🔧 Repair"
                         (dumps (JObj [("action", JStr "repair"); ("run_id", JNum 43)]))))
                true]
          []).
Proof.
  split; [discriminate|]. split; [reflexivity|]. split.
  - eexists. vm_compute. right. left. reflexivity.
  - split; vm_compute; reflexivity.
Qed.

(** * Further properties of the code *)

(** ** Exceptions *)

Lemma try_except_ok {A} (body : M A) (handler : string -> M A) (w : World)
    (s s' : Journal) (a : A) :
  body w s = (Ok a, s') -> try_except body handler w s = (Ok a, s').
Proof. intros H. unfold try_except. now rewrite H. Qed.

Lemma try_except_raise {A} (body : M A) (handler : string -> M A) (w : World)
    (s s' : Journal) (e : string) :
  body w s = (Raise e, s') -> try_except body handler w s = handler e w s'.
Proof. intros H. unfold try_except. now rewrite H. Qed.

Lemma emits_try_except (P : Event -> Prop) (w : World) {A} (body : M A)
    (handler : string -> M A) :
  emits P body w -> (forall e, emits P (handler e) w) ->
  emits P (try_except body handler) w.
Proof.
  intros Hb Hh s. destruct (Hb s) as (n1 & T1 & F1). unfold try_except.
  destruct (body w s) as [[a|e] s1]; simpl in T1.
  - now exists n1.
  - destruct (Hh e s1) as (n2 & T2 & F2).
    exists (n1 ++ n2)%list. rewrite T2, T1, app_assoc. split; [reflexivity|].
    apply Forall_app. now split.
Qed.

(** ** The date window *)

(** A time stamp passes the date test exactly when it is present, is not
    zero, and its local time in the configured zone lies in the 24 hours that
    start at midnight of the given date. *)
Theorem on_date_window (TZ : Z -> Z) (today : Z) (t : option Z) :
  on_date TZ today t = true
  <-> exists ms, t = Some ms /\ ms <> 0%Z
                 /\ (today * 86400000 <= ms + TZ ms * 1000 < (today + 1) * 86400000)%Z.
Proof.
  unfold on_date, local_date. destruct t as [ms|].
  - split.
    + intros H. apply andb_true_iff in H. destruct H as (Hz & Hd).
      exists ms. split; [reflexivity|].
      apply negb_true_iff, Z.eqb_neq in Hz. apply Z.eqb_eq in Hd.
      split; [assumption|].
      pose proof (Z.div_mod (ms + TZ ms * 1000) 86400000 ltac:(lia)).
      pose proof (Z.mod_pos_bound (ms + TZ ms * 1000) 86400000 ltac:(lia)).
      lia.
    + intros (ms' & [= <-] & Hz & Hlo & Hhi).
      apply andb_true_iff. split.
      * now apply negb_true_iff, Z.eqb_neq.
      * apply Z.eqb_eq. symmetry.
        apply (Z.div_unique _ _ today (ms + TZ ms * 1000 - today * 86400000)); lia.
  - split; [discriminate|]. intros (ms & [=] & _).
Qed.

(** ** The latest run *)

Lemma max_by_start_split (rest : list Run) :
  forall (best : Run) (pre mid : list Run),
    (forall x, In x pre -> (start_key x < start_key best)%Z) ->
    (forall x, In x mid -> (start_key x <= start_key best)%Z) ->
    exists before behind,
      (pre ++ best :: mid ++ rest = before ++ max_by_start best rest :: behind)%list
      /\ (forall x, In x before -> (start_key x < start_key (max_by_start best rest))%Z)
      /\ (forall x, In x behind -> (start_key x <= start_key (max_by_start best rest))%Z).
Proof.
  induction rest as [|r rest IH]; intros best pre mid Hpre Hmid; simpl.
  - exists pre, mid. rewrite app_nil_r. auto.
  - destruct (Z.ltb_spec (start_key best) (start_key r)) as [Hlt|Hge].
    + destruct (IH r (pre ++ best :: mid)%list []) as (before & behind & E & Hb & Ha).
      * intros x Hx. apply in_app_iff in Hx. destruct Hx as [Hx|[<-|Hx]].
        -- specialize (Hpre x Hx). lia.
        -- exact Hlt.
        -- specialize (Hmid x Hx). lia.
      * intros x [].
      * exists before, behind. split; [|auto].
        rewrite <- E. rewrite <- app_assoc. reflexivity.
    + destruct (IH best pre (mid ++ [r])%list) as (before & behind & E & Hb & Ha).
      * exact Hpre.
      * intros x Hx. apply in_app_iff in Hx. destruct Hx as [Hx|[<-|[]]]; auto.
      * exists before, behind. split; [|auto].
        rewrite <- E. rewrite <- app_assoc. reflexivity.
Qed.

(** [max] picks a run of the list whose start is the greatest; every run
    listed before the one it picks started strictly earlier, so among runs
    with the same start the first listed wins. *)
Theorem max_by_start_first_latest (best : Run) (rest : list Run) :
  exists before behind,
    (best :: rest = before ++ max_by_start best rest :: behind)%list
    /\ (forall x, In x before -> (start_key x < start_key (max_by_start best rest))%Z)
    /\ (forall x, In x behind -> (start_key x <= start_key (max_by_start best rest))%Z).
Proof.
  destruct (max_by_start_split rest best [] []) as (before & behind & E & Hb & Ha).
  - intros x [].
  - intros x [].
  - exists before, behind. auto.
Qed.

Lemma max_by_start_in (best : Run) (rest : list Run) :
  In (max_by_start best rest) (best :: rest).
Proof.
  destruct (max_by_start_split rest best [] []) as (before & behind & E & _);
    try (intros x []).
  simpl in E. rewrite E. apply in_app_iff. right. now left.
Qed.

(** ** More on the status check *)

Lemma runs_today_have_a_start (TZ : Z -> Z) (today : Z) (runs : list Run) (r : Run) :
  In r (filter (fun r => on_date TZ today (start_time r)) runs) ->
  exists ms, start_time r = Some ms.
Proof.
  intros H. apply filter_In in H. destruct H as (_ & H).
  unfold on_date in H. destruct (start_time r) as [ms|]; [now exists ms|discriminate].
Qed.

Lemma truthy_present (t : option Z) :
  truthy t = true -> exists ms, t = Some ms.
Proof.
  destruct t as [ms|]; [now exists ms|discriminate].
Qed.

(** Without a run of today the status check sends one message, without a
    button, that says so. *)
Theorem status_check_without_runs_today
    (TZ : Z -> Z) (json_dumps : json -> string) (jid : json)
    (w : World) (s : Journal) (job : Job) (runs : list Run) :
  chat_ok w ->
  jobs_get w jid = Ok job ->
  jobs_list_runs w jid = Ok runs ->
  (forall r, In r runs ->
     on_date TZ (local_date (host_utcoffset w) (now w)) (start_time r) = false) ->
  check_job_today_status TZ json_dumps jid w s
  = (Ok tt,
     record (Sent ("📅 **" ++ name (settings job) ++ "**" ++ LF ++ "No runs today.")
                  None true)
            (tick_chat s)).
Proof.
  intros Hc Hg Hl Hnone. unfold check_job_today_status.
  erewrite bind_eq by (unfold date_today; reflexivity).
  apply try_except_ok.
  erewrite bind_eq by (unfold ws_jobs_get; rewrite Hg; reflexivity).
  erewrite bind_eq by (unfold ws_jobs_list_runs; rewrite Hl; reflexivity).
  destruct (filter _ runs) as [|r0 rest] eqn:Ef.
  - now apply send_message_ok.
  - assert (Hin : In r0 (r0 :: rest)) by now left.
    rewrite <- Ef in Hin. apply filter_In in Hin. destruct Hin as (Hin & Hon).
    rewrite (Hnone r0 Hin) in Hon. discriminate.
Qed.

Lemma status_check_without_runs_today_witness :
  check_job_today_status IST dumps (JNum 8) quiet_host blank
  = (Ok tt,
     mkJournal 1 [Sent ("📅 **adhoc**" ++ LF ++ "No runs today.") None true] []).
Proof.
  apply (status_check_without_runs_today IST dumps (JNum 8) quiet_host blank adhoc
           [run_of 40 (Some clock_2359) None None; run_of 39 None None None]).
  - intros n. reflexivity.
  - reflexivity.
  - reflexivity.
  - intros r [<-|[<-|[]]]; reflexivity.
Defined.

(** When fetching the job or listing its runs fails, the status check sends
    one message with the text of the error and does not raise. *)
Theorem status_check_reports_fetch_error
    (TZ : Z -> Z) (json_dumps : json -> string) (jid : json)
    (w : World) (s : Journal) (e : string) :
  chat_ok w ->
  jobs_get w jid = Raise e
  \/ ((exists job, jobs_get w jid = Ok job) /\ jobs_list_runs w jid = Raise e) ->
  check_job_today_status TZ json_dumps jid w s
  = (Ok tt, record (Sent ("❌ Error: " ++ e) None false) (tick_chat s)).
Proof.
  intros Hc H. unfold check_job_today_status.
  erewrite bind_eq by (unfold date_today; reflexivity).
  erewrite try_except_raise; [now apply send_message_ok|].
  destruct H as [Hg|((job & Hg) & Hl)].
  - erewrite bind_raise; [reflexivity|]. unfold ws_jobs_get. now rewrite Hg.
  - erewrite bind_eq by (unfold ws_jobs_get; rewrite Hg; reflexivity).
    erewrite bind_raise; [reflexivity|]. unfold ws_jobs_list_runs. now rewrite Hl.
Qed.

Lemma status_check_reports_fetch_error_witness :
  check_job_today_status IST dumps (JNum 7) outage blank
  = (Ok tt, mkJournal 1 [Sent "❌ Error: Connection refused" None false] []).
Proof.
  apply (status_check_reports_fetch_error IST dumps (JNum 7) outage blank
           "Connection refused").
  - intros n. reflexivity.
  - left. reflexivity.
Defined.

(** With runs of today, the status check sends one message about the latest
    of them: SUCCESS without a button, FAILED with the state message and a
    button that carries the repair payload of that run, and RUNNING without
    a button for every other result state.  The duration says that the run
    is still running exactly when its end time is absent or zero. *)
Theorem status_check_verdict
    (TZ : Z -> Z) (json_dumps : json -> string) (jid : json)
    (w : World) (s : Journal) (job : Job) (runs : list Run) (r0 : Run)
    (rest : list Run) :
  chat_ok w ->
  jobs_get w jid = Ok job ->
  jobs_list_runs w jid = Ok runs ->
  filter (fun r => on_date TZ (local_date (host_utcoffset w) (now w)) (start_time r))
         runs = r0 :: rest ->
  let r := max_by_start r0 rest in
  exists st dur,
    start_time r = Some st
    /\ dur = (if truthy (end_time r)
              then clock_HHMM (TZ st) st ++ " – "
                   ++ match end_time r with
                      | Some en => clock_HHMM (TZ en) en
                      | None => EmptyString
                      end
              else "Started " ++ clock_HHMM (TZ st) st ++ " (still running)")
    /\ check_job_today_status TZ json_dumps jid w s
       = (Ok tt,
          record
            match result_state (state r) with
            | Some SUCCESS =>
              Sent (status_line "✅" (name (settings job)) "SUCCESS" dur (run_id r))
                   None true
            | Some FAILED =>
              Sent (status_line "❌" (name (settings job)) "FAILED" dur (run_id r)
                    ++ LF ++ or_empty (state_message (state r)))
                   (Some (mkButton "🔧 Repair"
                            (json_dumps (payload "repair" "run_id" (run_id r)))))
                   true
            | _ =>
              Sent (status_line "🔄" (name (settings job)) "RUNNING" dur (run_id r))
                   None true
            end
            (tick_chat s)).
Proof.
  intros Hc Hg Hl Hf r.
  destruct (runs_today_have_a_start TZ (local_date (host_utcoffset w) (now w))
              runs r) as (st & Hst).
  { rewrite Hf. apply max_by_start_in. }
  exists st. eexists. split; [exact Hst|]. split; [reflexivity|].
  unfold check_job_today_status.
  erewrite bind_eq by (unfold date_today; reflexivity).
  apply try_except_ok.
  erewrite bind_eq by (unfold ws_jobs_get; rewrite Hg; reflexivity).
  erewrite bind_eq by (unfold ws_jobs_list_runs; rewrite Hl; reflexivity).
  rewrite Hf. cbv zeta. fold r. rewrite Hst.
  erewrite bind_eq by reflexivity.
  destruct (truthy (end_time r)) eqn:Et.
  - destruct (truthy_present _ Et) as (en & Hen). rewrite Hen.
    erewrite bind_eq by reflexivity.
    destruct (result_state (state r)) as [[]|]; now apply send_message_ok.
  - erewrite bind_eq by reflexivity.
    destruct (result_state (state r)) as [[]|]; now apply send_message_ok.
Qed.

Lemma status_check_verdict_witness :
  exists st dur,
    start_time (max_by_start (run_of 43 (Some clock_0030) (Some clock_0100) (Some FAILED)) [])
    = Some st
    /\ dur = "00:30 – 01:00"
    /\ check_job_today_status IST dumps (JNum 7) failing_host blank
       = (Ok tt,
          mkJournal 1
            [Sent (status_line "❌" "nightly" "FAILED" dur 43 ++ LF)
                  (Some (mkButton "🔧 Repair" (dumps (payload "repair" "run_id" 43))))
                  true]
            []).
Proof.
  destruct (status_check_verdict IST dumps (JNum 7) failing_host blank nightly
              [run_of 43 (Some clock_0030) (Some clock_0100) (Some FAILED)]
              (run_of 43 (Some clock_0030) (Some clock_0100) (Some FAILED)) []
              (fun _ => eq_refl) eq_refl eq_refl eq_refl)
    as (st & dur & Hst & Hd & E).
  exists st, dur. split; [exact Hst|]. split; [|exact E].
  injection Hst as <-. rewrite Hd. reflexivity.
Defined.

(** Whatever the job service answers, the status check ends normally after
    one message when the chat service accepts it. *)
Lemma status_check_sends_one
    (TZ : Z -> Z) (json_dumps : json -> string) (jid : json)
    (w : World) (s : Journal) :
  chat_ok w ->
  exists body kb md,
    check_job_today_status TZ json_dumps jid w s
    = (Ok tt, record (Sent body kb md) (tick_chat s)).
Proof.
  intros Hc.
  assert (Hsend : forall body kb md,
            exists body' kb' md',
              send_message body kb md w s
              = (Ok tt, record (Sent body' kb' md') (tick_chat s)))
    by (intros; do 3 eexists; now apply send_message_ok).
  unfold check_job_today_status, try_except, bind, date_today, ws_jobs_get,
    ws_jobs_list_runs.
  destruct (jobs_get w jid) as [job|e]; [|apply Hsend].
  destruct (jobs_list_runs w jid) as [runs|e]; [|apply Hsend].
  destruct (filter _ runs) as [|r0 rest].
  - destruct (Hsend ("📅 **" ++ name (settings job) ++ "**" ++ LF ++ "No runs today.")
                    None true) as (b & k & m & E).
    rewrite E. now exists b, k, m.
  - cbv zeta. unfold strftime_HHMM.
    destruct (start_time (max_by_start r0 rest)) as [st|]; [|apply Hsend].
    unfold ret at 1.
    destruct (truthy (end_time (max_by_start r0 rest)));
      [destruct (end_time (max_by_start r0 rest)) as [en|]; [|apply Hsend]|];
      unfold ret;
      (destruct (result_state (state (max_by_start r0 rest))) as [[]|];
       match goal with
       | |- context [send_message ?b ?k ?m w s] =>
         destruct (Hsend b k m) as (b' & k' & m' & E); rewrite E; now exists b', k', m'
       end).
Qed.

(** ** The repair helper *)

Lemma repair_databricks_job_run (py_str : json -> string) (rid : json)
    (w : World) (s : Journal) :
  chat_ok w ->
  repair_databricks_job py_str rid w s
  = (Ok tt,
     record (Sent match jobs_repair_run w rid with
                  | Ok _ =>
                    "✅ Repair started!" ++ LF ++ "Original: `" ++ py_str rid
                    ++ "`" ++ LF ++ "Repair run: `" ++ py_str rid ++ "`"
                  | Raise e => "❌ Repair failed: " ++ e
                  end None false)
            (tick_chat (record (Repaired rid) s))).
Proof.
  intros Hc. unfold repair_databricks_job, try_except, bind, ws_jobs_repair_run.
  destruct (jobs_repair_run w rid) as [new|e]; now rewrite send_message_ok.
Qed.

(** A repair is requested once and then reported once.  When the job service
    accepts it, the message shows the id the helper was given both as the
    original and as the repair run, whatever id the service answered: the
    [run_id] of the object the client returns is the argument of the call.
    When the request raises, the message is the text of the error.  The
    helper does not raise and does not try again. *)
Theorem repair_is_requested_once_and_reported
    (py_str : json -> string) (rid : json) (w : World) (s : Journal) :
  chat_ok w ->
  exists report s',
    repair_databricks_job py_str rid w s = (Ok tt, s')
    /\ trace s' = (trace s ++ [Repaired rid; Sent report None false])%list
    /\ (forall answered, jobs_repair_run w rid = Ok answered ->
          report = "✅ Repair started!" ++ LF ++ "Original: `" ++ py_str rid
                   ++ "`" ++ LF ++ "Repair run: `" ++ py_str rid ++ "`")
    /\ (forall e, jobs_repair_run w rid = Raise e ->
          report = "❌ Repair failed: " ++ e).
Proof.
  intros Hc. rewrite repair_databricks_job_run by assumption.
  do 2 eexists. split; [reflexivity|]. split; [trace_eq|].
  split; intros x Hx; now rewrite Hx.
Qed.

Lemma repair_is_requested_once_and_reported_witness :
  (exists s',
     repair_databricks_job str_of (JNum 41) outage blank = (Ok tt, s')
     /\ trace s' = [Repaired (JNum 41);
                    Sent "❌ Repair failed: Connection refused" None false])
  /\ (exists s',
        jobs_repair_run zone_host (JNum 41) = Ok 501
        /\ repair_databricks_job str_of (JNum 41) zone_host blank = (Ok tt, s')
        /\ trace s' = [Repaired (JNum 41);
                       Sent ("✅ Repair started!" ++ LF ++ "Original: `41`" ++ LF
                             ++ "Repair run: `41`") None false]).
Proof.
  split.
  - destruct (repair_is_requested_once_and_reported str_of (JNum 41) outage blank
                (fun _ => eq_refl)) as (report & s' & E & T & _ & Hr).
    exists s'. split; [exact E|].
    rewrite T, (Hr "Connection refused" eq_refl). reflexivity.
  - destruct (repair_is_requested_once_and_reported str_of (JNum 41) zone_host blank
                (fun _ => eq_refl)) as (report & s' & E & T & Hok & _).
    exists s'. split; [reflexivity|]. split; [exact E|].
    rewrite T, (Hok 501 eq_refl). reflexivity.
Defined.

(** ** Errors while toggling *)

Lemma toggle_fetch_error_run (py_str : json -> string) (jid : json) (pause : bool)
    (w : World) (s : Journal) (e : string) :
  chat_ok w ->
  jobs_get w jid = Raise e ->
  toggle_job_schedule py_str jid pause w s
  = (Ok tt,
     record (Sent ("❌ Could not toggle schedule: " ++ e) None false) (tick_chat s)).
Proof.
  intros Hc Hg. unfold toggle_job_schedule, try_except, bind, ws_jobs_get.
  rewrite Hg. now apply send_message_ok.
Qed.

(** When the job cannot be fetched, pausing or resuming sends one message
    with the text of the error and requests no update. *)
Theorem toggle_reports_fetch_error
    (py_str : json -> string) (jid : json) (pause : bool)
    (w : World) (s : Journal) (e : string) :
  chat_ok w ->
  jobs_get w jid = Raise e ->
  exists s',
    toggle_job_schedule py_str jid pause w s = (Ok tt, s')
    /\ trace s'
       = (trace s ++ [Sent ("❌ Could not toggle schedule: " ++ e) None false])%list.
Proof.
  intros Hc Hg. rewrite (toggle_fetch_error_run py_str jid pause w s e Hc Hg).
  eexists. split; reflexivity.
Qed.

Lemma toggle_reports_fetch_error_witness :
  exists s',
    toggle_job_schedule str_of (JNum 7) true outage blank = (Ok tt, s')
    /\ trace s'
       = [Sent "❌ Could not toggle schedule: Connection refused" None false].
Proof.
  exact (toggle_reports_fetch_error str_of (JNum 7) true outage blank
           "Connection refused" (fun _ => eq_refl) eq_refl).
Defined.

(** When the job service rejects the update, the request has been made with
    the changed settings and the operator gets the text of the error, not
    the success message. *)
Theorem toggle_reports_rejected_update
    (py_str : json -> string) (jid : json) (pause : bool)
    (w : World) (s : Journal) (job : Job) (sch : CronSchedule) (e : string) :
  chat_ok w ->
  jobs_get w jid = Ok job ->
  schedule (settings job) = Some sch ->
  jobs_update w jid
    (mkJobSettings (name (settings job))
       (Some (set_pause_status sch (if pause then "PAUSED" else "UNPAUSED")))
       (other_settings (settings job))) = Raise e ->
  exists s',
    toggle_job_schedule py_str jid pause w s = (Ok tt, s')
    /\ trace s'
       = (trace s
          ++ [Updated jid
                (mkJobSettings (name (settings job))
                   (Some (set_pause_status sch (if pause then "PAUSED" else "UNPAUSED")))
                   (other_settings (settings job)));
              Sent ("❌ Could not toggle schedule: " ++ e) None false])%list.
Proof.
  intros Hc Hg Hs Hu.
  rewrite (toggle_job_schedule_run py_str jid pause w s job Hc Hg), Hs.
  cbv zeta. rewrite Hu. eexists. split; [reflexivity|trace_eq].
Qed.

Lemma toggle_reports_rejected_update_witness :
  exists s',
    toggle_job_schedule str_of (JNum 7) true read_only_host blank = (Ok tt, s')
    /\ trace s'
       = [Updated (JNum 7)
            (mkJobSettings "nightly"
               (Some (mkCronSchedule (Text "PAUSED") "0 0 2 * * ?" "Asia/Kolkata"))
               [("max_concurrent_runs", JNum 1)]);
          Sent "❌ Could not toggle schedule: Permission denied" None false].
Proof.
  exact (toggle_reports_rejected_update str_of (JNum 7) true read_only_host blank
           nightly (mkCronSchedule (Member UNPAUSED) "0 0 2 * * ?" "Asia/Kolkata")
           "Permission denied" (fun _ => eq_refl) eq_refl eq_refl eq_refl).
Defined.

(** ** More on the dispatcher *)

Lemma acknowledgements_app (a b : list Event) :
  acknowledgements (a ++ b) = (acknowledgements a + acknowledgements b)%nat.
Proof.
  unfold acknowledgements. now rewrite filter_app, length_app.
Qed.

Lemma helpers_return_quietly (TZ : Z -> Z) (json_dumps : json -> string)
    (py_str : json -> string) (w : World) (a key notice : string)
    (helper : json -> M unit) :
  chat_ok w ->
  In (a, (key, notice, helper)) (dispatch_table TZ json_dumps py_str) ->
  forall x, returns_quietly (helper x) w.
Proof.
  intros Hc Hin x s.
  assert (Htoggle : forall p, exists s' new,
            toggle_job_schedule py_str x p w s = (Ok tt, s')
            /\ trace s' = (trace s ++ new)%list /\ acknowledgements new = 0%nat).
  { intros p. destruct (jobs_get w x) as [job|e] eqn:Hg.
    - rewrite (toggle_job_schedule_run py_str x p w s job Hc Hg).
      destruct (schedule (settings job)) as [sch|]; cbv zeta.
      + do 2 eexists. split; [reflexivity|]. split; [trace_eq|reflexivity].
      + do 2 eexists. split; [reflexivity|]. split; [trace_eq|reflexivity].
    - rewrite (toggle_fetch_error_run py_str x p w s e Hc Hg).
      do 2 eexists. split; [reflexivity|]. split; [trace_eq|reflexivity]. }
  destruct Hin as [[= <- <- <- <-]|[[= <- <- <- <-]|[[= <- <- <- <-]|[[= <- <- <- <-]|[]]]]].
  - destruct (status_check_sends_one TZ json_dumps x w s Hc) as (b & k & m & E).
    rewrite E. do 2 eexists. split; [reflexivity|]. split; [trace_eq|reflexivity].
  - rewrite repair_databricks_job_run by assumption.
    do 2 eexists. split; [reflexivity|]. split; [trace_eq|reflexivity].
  - apply Htoggle.
  - apply Htoggle.
Qed.

(** What the dispatcher does with a dictionary whose action is known. *)
Lemma handle_callback_recognized
    (TZ : Z -> Z) (json_dumps : json -> string)
    (json_loads : string -> option json) (py_str : json -> string)
    (call : CallbackQuery) (w : World) (s : Journal)
    (items : list (string * json)) (a key notice : string)
    (helper : json -> M unit) :
  chat_ok w ->
  json_loads (data call) = Some (JObj items) ->
  items_get items "action" = Some (JStr a) ->
  In (a, (key, notice, helper)) (dispatch_table TZ json_dumps py_str) ->
  handle_callback TZ json_dumps json_loads py_str call w s
  = match items_get items key with
    | Some x => helper x w (record (Answered (id call) notice) (tick_chat s))
    | None => (Ok tt, refused call s)
    end.
Proof.
  intros Hc Hl Ha Hin.
  pose proof (helpers_return_quietly TZ json_dumps py_str w a key notice helper
                Hc Hin) as Hq.
  unfold handle_callback.
  destruct (items_get items key) as [x|] eqn:Hk.
  - destruct (Hq x (record (Answered (id call) notice) (tick_chat s)))
      as (s' & new & E & _).
    rewrite E. apply try_except_ok.
    erewrite bind_eq by (rewrite Hl; reflexivity).
    erewrite bind_eq by (unfold dict_get; rewrite Ha; reflexivity).
    destruct Hin as [[= <- <- <- <-]|[[= <- <- <- <-]|[[= <- <- <- <-]|[[= <- <- <- <-]|[]]]]];
      eval_is_str;
      (erewrite bind_eq by (unfold dict_item; rewrite Hk; reflexivity));
      (erewrite bind_eq by (apply answer_ok; assumption));
      exact E.
  - erewrite try_except_raise.
    + erewrite bind_eq by (apply answer_ok; assumption). reflexivity.
    + erewrite bind_eq by (rewrite Hl; reflexivity).
      erewrite bind_eq by (unfold dict_get; rewrite Ha; reflexivity).
      destruct Hin as [[= <- <- <- <-]|[[= <- <- <- <-]|[[= <- <- <- <-]|[[= <- <- <- <-]|[]]]]];
        eval_is_str;
        (erewrite bind_raise; [reflexivity|]);
        unfold dict_item; rewrite Hk; reflexivity.
Qed.

Lemma handle_callback_not_a_dict
    (TZ : Z -> Z) (json_dumps : json -> string)
    (json_loads : string -> option json) (py_str : json -> string)
    (call : CallbackQuery) (w : World) (s : Journal) (v : json) :
  chat_ok w ->
  json_loads (data call) = Some v ->
  (forall items, v <> JObj items) ->
  handle_callback TZ json_dumps json_loads py_str call w s = (Ok tt, refused call s).
Proof.
  intros Hc Hl Hv. unfold handle_callback.
  erewrite try_except_raise.
  - erewrite bind_eq by (apply answer_ok; assumption). reflexivity.
  - erewrite bind_eq by (rewrite Hl; reflexivity).
    erewrite bind_raise; [reflexivity|].
    destruct v; try reflexivity. now destruct (Hv items).
Qed.

Lemma handle_callback_other_action
    (TZ : Z -> Z) (json_dumps : json -> string)
    (json_loads : string -> option json) (py_str : json -> string)
    (call : CallbackQuery) (w : World) (s : Journal)
    (items : list (string * json)) :
  json_loads (data call) = Some (JObj items) ->
  is_str (action_of items) "check_status" = false ->
  is_str (action_of items) "repair" = false ->
  is_str (action_of items) "pause" = false ->
  is_str (action_of items) "resume" = false ->
  handle_callback TZ json_dumps json_loads py_str call w s = (Ok tt, s).
Proof.
  intros Hl H1 H2 H3 H4. unfold handle_callback. apply try_except_ok.
  erewrite bind_eq by (rewrite Hl; reflexivity).
  erewrite bind_eq with (a := action_of items).
  - now rewrite H1, H2, H3, H4.
  - unfold dict_get, action_of. now destruct (items_get items "action").
Qed.

Lemma is_str_true (v : json) (a : string) : is_str v a = true -> v = JStr a.
Proof.
  destruct v; try discriminate. simpl. intros H. apply String.eqb_eq in H. now subst.
Qed.

Lemma action_of_str (items : list (string * json)) (a : string) :
  action_of items = JStr a -> items_get items "action" = Some (JStr a).
Proof.
  unfold action_of. destruct (items_get items "action"); [now intros ->|discriminate].
Qed.

(** A button the bot mints, tapped: when decoding gives back the payload, the
    dispatcher acknowledges with the notice of the action and then does
    exactly what the helper of the action does for the id on the button. *)
Theorem tapped_button_runs_its_helper
    (TZ : Z -> Z) (json_dumps : json -> string)
    (json_loads : string -> option json) (py_str : json -> string)
    (cid : string) (w : World) (s : Journal)
    (a key notice : string) (helper : json -> M unit) (n : Z) :
  chat_ok w ->
  In (a, (key, notice, helper)) (dispatch_table TZ json_dumps py_str) ->
  json_loads (json_dumps (payload a key n)) = Some (payload a key n) ->
  handle_callback TZ json_dumps json_loads py_str
    (mkCall cid (json_dumps (payload a key n))) w s
  = helper (JNum n) w (record (Answered cid notice) (tick_chat s)).
Proof.
  intros Hc Hin Hl.
  rewrite (handle_callback_recognized TZ json_dumps json_loads py_str
             (mkCall cid (json_dumps (payload a key n))) w s
             [("action", JStr a); (key, JNum n)] a key notice helper Hc Hl eq_refl Hin).
  destruct Hin as [[= <- <- <- <-]|[[= <- <- <- <-]|[[= <- <- <- <-]|[[= <- <- <- <-]|[]]]]];
    reflexivity.
Qed.

Lemma tapped_button_runs_its_helper_witness :
  handle_callback IST dumps
    (loads_as (dumps (payload "repair" "run_id" 43)) (payload "repair" "run_id" 43))
    str_of (mkCall "cb5" (dumps (payload "repair" "run_id" 43))) failing_host blank
  = (Ok tt,
     mkJournal 2
       [Answered "cb5" "🔧 Repairing…"; Repaired (JNum 43);
        Sent ("✅ Repair started!" ++ LF ++ "Original: `43`" ++ LF
              ++ "Repair run: `43`") None false]
       []).
Proof.
  rewrite (tapped_button_runs_its_helper IST dumps
             (loads_as (dumps (payload "repair" "run_id" 43))
                       (payload "repair" "run_id" 43))
             str_of "cb5" failing_host blank "repair" "run_id" "🔧 Repairing…"
             (repair_databricks_job str_of) 43).
  - reflexivity.
  - intros n. reflexivity.
  - right. left. reflexivity.
  - reflexivity.
Defined.

(** A payload that decodes to something other than a dictionary, or to a
    dictionary with a known action but without the key of its target, is
    refused: one acknowledgement with the error notice, one log entry, and
    no request to the job service. *)
Theorem unusable_payload_is_refused
    (TZ : Z -> Z) (json_dumps : json -> string)
    (json_loads : string -> option json) (py_str : json -> string)
    (call : CallbackQuery) (w : World) (s : Journal) (v : json) :
  chat_ok w ->
  json_loads (data call) = Some v ->
  (forall items, v <> JObj items)
  \/ (exists items a key notice helper,
        v = JObj items
        /\ items_get items "action" = Some (JStr a)
        /\ In (a, (key, notice, helper)) (dispatch_table TZ json_dumps py_str)
        /\ items_get items key = None) ->
  handle_callback TZ json_dumps json_loads py_str call w s
  = (Ok tt,
     mkJournal (S (chat_calls s))
               (trace s ++ [Answered (id call) "❌ Error processing request"])
               (console s ++ [LoggedException "callback error"])).
Proof.
  intros Hc Hl [Hv|(items & a & key & notice & helper & -> & Ha & Hin & Hk)].
  - now rewrite (handle_callback_not_a_dict TZ json_dumps json_loads py_str
                   call w s v Hc Hl Hv).
  - rewrite (handle_callback_recognized TZ json_dumps json_loads py_str call w s
               items a key notice helper Hc Hl Ha Hin), Hk.
    reflexivity.
Qed.

Lemma unusable_payload_is_refused_witness :
  handle_callback IST dumps (loads_as "[7]" (JArr [JNum 7])) str_of
    (mkCall "cb6" "[7]") zone_host blank
  = (Ok tt,
     mkJournal 1 [Answered "cb6" "❌ Error processing request"]
               [LoggedException "callback error"]).
Proof.
  apply (unusable_payload_is_refused IST dumps (loads_as "[7]" (JArr [JNum 7]))
           str_of (mkCall "cb6" "[7]") zone_host blank (JArr [JNum 7])).
  - intros n. reflexivity.
  - reflexivity.
  - left. intros items. discriminate.
Defined.

(** When the chat service accepts every call, the dispatcher does not raise
    and acknowledges a tap at most once, whatever the payload and whatever
    the job service answers. *)
Theorem tap_is_acknowledged_at_most_once
    (TZ : Z -> Z) (json_dumps : json -> string)
    (json_loads : string -> option json) (py_str : json -> string)
    (call : CallbackQuery) (w : World) (s : Journal) :
  chat_ok w ->
  exists s' new,
    handle_callback TZ json_dumps json_loads py_str call w s = (Ok tt, s')
    /\ trace s' = (trace s ++ new)%list
    /\ (acknowledgements new <= 1)%nat.
Proof.
  intros Hc.
  assert (Hrefused : exists s' new,
            (Ok tt, refused call s) = (Ok tt, s')
            /\ trace s' = (trace s ++ new)%list /\ (acknowledgements new <= 1)%nat).
  { do 2 eexists. split; [reflexivity|]. split; [reflexivity|]. unfold acknowledgements. simpl. lia. }
  assert (Hknown : forall items a key notice helper,
            json_loads (data call) = Some (JObj items) ->
            is_str (action_of items) a = true ->
            In (a, (key, notice, helper)) (dispatch_table TZ json_dumps py_str) ->
            exists s' new,
              handle_callback TZ json_dumps json_loads py_str call w s = (Ok tt, s')
              /\ trace s' = (trace s ++ new)%list /\ (acknowledgements new <= 1)%nat).
  { intros items a key notice helper Hl Ha%is_str_true%action_of_str Hin.
    rewrite (handle_callback_recognized TZ json_dumps json_loads py_str call w s
               items a key notice helper Hc Hl Ha Hin).
    destruct (items_get items key) as [x|]; [|exact Hrefused].
    destruct (helpers_return_quietly TZ json_dumps py_str w a key notice helper
                Hc Hin x (record (Answered (id call) notice) (tick_chat s)))
      as (s' & new & E & T & A).
    exists s', (Answered (id call) notice :: new). split; [exact E|]. split.
    - rewrite T. cbn [trace record tick_chat]. now rewrite <- app_assoc.
    - change (Answered (id call) notice :: new)
        with ([Answered (id call) notice] ++ new)%list.
      rewrite acknowledgements_app, A. unfold acknowledgements. simpl. lia. }
  destruct (json_loads (data call)) as [v|] eqn:Hl.
  - destruct v as [| | | | |items];
      try (rewrite (handle_callback_not_a_dict TZ json_dumps json_loads py_str
                      call w s _ Hc Hl) by (intros; discriminate);
           exact Hrefused).
    destruct (is_str (action_of items) "check_status") eqn:H1.
    { eapply Hknown; [reflexivity|exact H1|left; reflexivity]. }
    destruct (is_str (action_of items) "repair") eqn:H2.
    { eapply Hknown; [reflexivity|exact H2|right; left; reflexivity]. }
    destruct (is_str (action_of items) "pause") eqn:H3.
    { eapply Hknown; [reflexivity|exact H3|right; right; left; reflexivity]. }
    destruct (is_str (action_of items) "resume") eqn:H4.
    { eapply Hknown; [reflexivity|exact H4|right; right; right; left; reflexivity]. }
    rewrite (handle_callback_other_action TZ json_dumps json_loads py_str call w s
               items Hl H1 H2 H3 H4).
    exists s, []. rewrite app_nil_r. repeat split. unfold acknowledgements. simpl. lia.
  - rewrite (malformed_payload_is_acknowledged TZ json_dumps json_loads py_str
               call w s Hc Hl).
    exact Hrefused.
Qed.

Lemma tap_is_acknowledged_at_most_once_witness :
  exists s' new,
    handle_callback IST dumps (loads_as "[7]" (JArr [JNum 7])) str_of
      (mkCall "cb6" "[7]") outage blank = (Ok tt, s')
    /\ trace s' = new /\ (acknowledgements new <= 1)%nat.
Proof.
  exact (tap_is_acknowledged_at_most_once IST dumps (loads_as "[7]" (JArr [JNum 7]))
           str_of (mkCall "cb6" "[7]") outage blank (fun _ => eq_refl)).
Defined.

(** ** Requests to the job service *)

Lemma emits_weaken (P Q : Event -> Prop) (w : World) {A} (m : M A) :
  (forall ev, P ev -> Q ev) -> emits P m w -> emits Q m w.
Proof.
  intros HPQ Hm s. destruct (Hm s) as (new & T & F).
  exists new. split; [exact T|]. eapply Forall_impl; eauto.
Qed.

Lemma strftime_emits (P : Event -> Prop) (w : World) (TZ : Z -> Z) (t : option Z) :
  emits P (strftime_HHMM TZ t) w.
Proof.
  apply emits_silent. intros s. now destruct t.
Qed.

Lemma status_check_emits (TZ : Z -> Z) (json_dumps : json -> string) (jid : json)
    (w : World) :
  emits (message_or (fun _ => False)) (check_job_today_status TZ json_dumps jid) w.
Proof.
  assert (Hsend : forall body kb md,
            emits (message_or (fun _ => False)) (send_message body kb md) w)
    by (intros; apply emits_chat_call; exact I).
  unfold check_job_today_status.
  apply emits_bind; [now apply emits_silent|]. intros today _ _ _.
  apply emits_try_except; [|intros e; apply Hsend].
  apply emits_bind; [now apply emits_silent|]. intros job _ _ _.
  apply emits_bind; [now apply emits_silent|]. intros runs _ _ _.
  destruct (filter _ runs) as [|r0 rest]; [apply Hsend|].
  apply emits_bind; [apply strftime_emits|]. intros start _ _ _.
  apply emits_bind.
  - destruct (truthy _); [|now apply emits_silent].
    apply emits_bind; [apply strftime_emits|]. intros end_ _ _ _.
    now apply emits_silent.
  - intros dur _ _ _. destruct (result_state _) as [[]|]; apply Hsend.
Qed.

Lemma repair_emits (py_str : json -> string) (rid : json) (w : World) :
  emits (message_or (fun ev => ev = Repaired rid)) (repair_databricks_job py_str rid) w.
Proof.
  unfold repair_databricks_job.
  apply emits_try_except; [|intros e; apply emits_chat_call; exact I].
  apply emits_bind.
  - intros s. exists [Repaired rid]. split; [reflexivity|].
    constructor; [reflexivity|constructor].
  - intros resp _ _ _. apply emits_chat_call. exact I.
Qed.

Lemma toggle_emits (py_str : json -> string) (jid : json) (pause : bool) (w : World) :
  emits (message_or (fun ev => exists st, ev = Updated jid st))
        (toggle_job_schedule py_str jid pause) w.
Proof.
  unfold toggle_job_schedule.
  apply emits_try_except; [|intros e; apply emits_chat_call; exact I].
  apply emits_bind; [now apply emits_silent|]. intros job _ _ _.
  destruct (schedule (settings job)) as [sch|]; [|apply emits_chat_call; exact I].
  cbv zeta. apply emits_bind.
  - intros s. eexists [Updated jid _]. split; [reflexivity|].
    constructor; [|constructor]. simpl. now eexists.
  - intros _ _ _ _. apply emits_chat_call. exact I.
Qed.

(** Whatever the two services answer, and however the helper ends: the
    status check makes no request that changes the job service, the repair
    helper makes none but repairs of the run it was given, and the toggle
    makes none but updates of the job it was given.  None of them
    acknowledges a tap. *)
Theorem helpers_change_only_their_target
    (TZ : Z -> Z) (json_dumps : json -> string) (py_str : json -> string)
    (target : json) (pause : bool) (w : World) :
  emits (message_or (fun _ => False)) (check_job_today_status TZ json_dumps target) w
  /\ emits (message_or (fun ev => ev = Repaired target))
           (repair_databricks_job py_str target) w
  /\ emits (message_or (fun ev => exists st, ev = Updated target st))
           (toggle_job_schedule py_str target pause) w.
Proof.
  split; [apply status_check_emits|].
  split; [apply repair_emits|apply toggle_emits].
Qed.

Lemma dict_item_some (d : json) (key : string) (w : World) (s s' : Journal) (x : json) :
  dict_item d key w s = (Ok x, s') ->
  exists items, d = JObj items /\ items_get items key = Some x.
Proof.
  destruct d; try discriminate. simpl.
  destruct (items_get items key) as [v|] eqn:E; [|discriminate].
  intros [= -> _]. now exists items.
Qed.

(** Whatever the payload and whatever the two services answer, every update
    the dispatcher requests is for the [job_id] of the decoded payload and
    every repair for its [run_id]; a payload that does not decode to a
    dictionary causes neither. *)
Theorem dispatcher_changes_only_the_payload_target
    (TZ : Z -> Z) (json_dumps : json -> string)
    (json_loads : string -> option json) (py_str : json -> string)
    (call : CallbackQuery) (w : World) :
  emits (targets_payload json_loads call)
        (handle_callback TZ json_dumps json_loads py_str call) w.
Proof.
  unfold handle_callback. apply emits_try_except.
  2:{ intros e. apply emits_bind; [apply emits_chat_call; exact I|].
      intros _ _ _ _. now apply emits_silent. }
  apply emits_bind.
  { apply emits_silent. intros s. now destruct (json_loads (data call)). }
  intros d s s' Ed.
  assert (Hl : json_loads (data call) = Some d).
  { destruct (json_loads (data call)); [|discriminate]. now injection Ed as -> _. }
  clear Ed s s'. apply emits_bind.
  { apply emits_silent. intros s. destruct d; try reflexivity.
    simpl. now destruct (items_get items "action"). }
  intros action _ _ _.
  assert (Hitem : forall key, emits (targets_payload json_loads call)
                                    (dict_item d key) w).
  { intros key. apply emits_silent. intros s. destruct d; try reflexivity.
    simpl. now destruct (items_get items key). }
  assert (Hack : forall notice, emits (targets_payload json_loads call)
                                      (answer_callback_query (id call) notice) w)
    by (intros; apply emits_chat_call; exact I).
  assert (Htoggle : forall x p,
            (exists items, d = JObj items /\ items_get items "job_id" = Some x) ->
            emits (targets_payload json_loads call) (toggle_job_schedule py_str x p) w).
  { intros x p (items & -> & Hk).
    eapply emits_weaken; [|apply toggle_emits].
    intros [] H; simpl in *; auto; destruct H as (st & E);
      [injection E as -> _; now exists items|discriminate]. }
  destruct (is_str action "check_status").
  { apply emits_bind; [apply Hitem|]. intros x _ _ _.
    apply emits_bind; [apply Hack|]. intros _ _ _ _.
    eapply emits_weaken; [|apply status_check_emits].
    intros [] H; simpl in *; auto; contradiction. }
  destruct (is_str action "repair").
  { apply emits_bind; [apply Hitem|]. intros x s s' (items & -> & Hk)%dict_item_some.
    apply emits_bind; [apply Hack|]. intros _ _ _ _.
    eapply emits_weaken; [|apply repair_emits].
    intros [] H; simpl in *; auto; [discriminate|].
    injection H as ->. now exists items. }
  destruct (is_str action "pause").
  { apply emits_bind; [apply Hitem|]. intros x s s' Hx%dict_item_some.
    apply emits_bind; [apply Hack|]. intros _ _ _ _. now apply Htoggle. }
  destruct (is_str action "resume").
  { apply emits_bind; [apply Hitem|]. intros x s s' Hx%dict_item_some.
    apply emits_bind; [apply Hack|]. intros _ _ _ _. now apply Htoggle. }
  now apply emits_silent.
Qed.

(** ** More on the listings *)

(** Without a job of the operator, /jobs and /pause each send the one
    message that says so. *)
Theorem listings_without_jobs
    (EMAIL : string) (json_dumps : json -> string)
    (w : World) (s : Journal) (js : list Job) :
  chat_ok w ->
  jobs_list w = Ok js ->
  (forall j, In j js -> creator_user_name j <> Some EMAIL) ->
  send_job_list EMAIL json_dumps w s
  = (Ok tt, record (Sent "No jobs found for your account." None false) (tick_chat s))
  /\ send_pause_job_list EMAIL json_dumps w s
     = (Ok tt, record (Sent "No jobs found for your account." None false) (tick_chat s)).
Proof.
  intros Hc Hl Hnone.
  assert (E : filter (owned EMAIL) js = []).
  { destruct (filter (owned EMAIL) js) as [|j l] eqn:E; [reflexivity|].
    assert (Hj : In j (filter (owned EMAIL) js)) by (rewrite E; now left).
    apply filter_In in Hj. destruct Hj as (Hj & Ho%owned_creator).
    now destruct (Hnone j Hj). }
  unfold send_job_list, send_pause_job_list.
  split; (erewrite bind_eq by (unfold ws_jobs_list; rewrite Hl; reflexivity));
    rewrite E; now apply send_message_ok.
Qed.

Lemma listings_without_jobs_witness :
  send_job_list operator dumps strangers_only blank
  = (Ok tt, mkJournal 1 [Sent "No jobs found for your account." None false] [])
  /\ send_pause_job_list operator dumps strangers_only blank
     = (Ok tt, mkJournal 1 [Sent "No jobs found for your account." None false] []).
Proof.
  apply (listings_without_jobs operator dumps strangers_only blank [foreign]).
  - intros n. reflexivity.
  - reflexivity.
  - intros j [<-|[]]. discriminate.
Defined.

(** /jobs sends the count of the operator's jobs and then, in listing order,
    one message per job with its name and id and a button that carries the
    [check_status] payload of that job. *)
Theorem job_listing_rows
    (EMAIL : string) (json_dumps : json -> string)
    (w : World) (s : Journal) (js : list Job) :
  chat_ok w ->
  jobs_list w = Ok js ->
  filter (owned EMAIL) js <> [] ->
  exists s',
    send_job_list EMAIL json_dumps w s = (Ok tt, s')
    /\ trace s'
       = (trace s
          ++ Sent ("📋 Found "
                   ++ str_int (Z.of_nat (List.length (filter (owned EMAIL) js)))
                   ++ " job(s). Tap to check today’s run:") None false
             :: map (job_row json_dumps) (filter (owned EMAIL) js))%list.
Proof.
  intros Hc Hl Hne. unfold send_job_list.
  erewrite bind_eq by (unfold ws_jobs_list; rewrite Hl; reflexivity).
  destruct (map _ (filter (owned EMAIL) js)) as [|t0 ts] eqn:E.
  - destruct (filter (owned EMAIL) js); [contradiction|discriminate].
  - rewrite <- E. clear E t0 ts. rewrite length_map.
    erewrite bind_eq by (apply send_message_ok; assumption).
    rewrite for_each_map.
    match goal with |- context [for_each _ ?b w ?s1] =>
      destruct (for_each_sends b (job_row json_dumps) w (filter (owned EMAIL) js))
        with (s := s1) as (s' & Es & Ts)
    end.
    { intros j s0 _. cbv beta zeta. rewrite send_message_ok by assumption.
      eexists. split; reflexivity. }
    exists s'. split; [exact Es|].
    rewrite Ts. cbn [trace record tick_chat]. now rewrite <- app_assoc.
Qed.

Lemma job_listing_rows_witness :
  exists s',
    send_job_list operator dumps zone_host blank = (Ok tt, s')
    /\ trace s'
       = [Sent "📋 Found 2 job(s). Tap to check today’s run:" None false;
          job_row dumps nightly; job_row dumps adhoc].
Proof.
  destruct (job_listing_rows operator dumps zone_host blank [nightly; adhoc; foreign]
              (fun _ => eq_refl) eq_refl) as (s' & E & T).
  - vm_compute. discriminate.
  - exists s'. split; [exact E|]. rewrite T. reflexivity.
Defined.

Lemma send_pause_job_list_run
    (EMAIL : string) (json_dumps : json -> string)
    (w : World) (s : Journal) (js : list Job) :
  chat_ok w ->
  jobs_list w = Ok js ->
  filter (owned EMAIL) js <> [] ->
  exists s' summary,
    send_pause_job_list EMAIL json_dumps w s = (Ok tt, s')
    /\ trace s'
       = (trace s ++ Sent summary None false
                     :: map (pause_row json_dumps) (filter (owned EMAIL) js))%list.
Proof.
  intros Hc Hl Hne. unfold send_pause_job_list.
  erewrite bind_eq by (unfold ws_jobs_list; rewrite Hl; reflexivity).
  destruct (map _ (filter (owned EMAIL) js)) as [|t0 ts] eqn:E.
  - destruct (filter (owned EMAIL) js); [contradiction|discriminate].
  - rewrite <- E. clear E t0 ts.
    erewrite bind_eq by (apply send_message_ok; assumption).
    rewrite for_each_map.
    match goal with |- context [for_each _ ?b w ?s1] =>
      destruct (for_each_sends b (pause_row json_dumps) w (filter (owned EMAIL) js))
        with (s := s1) as (s' & Es & Ts)
    end.
    { intros j s0 _. unfold pause_row. cbv beta zeta.
      destruct (can_pause (schedule (settings j)));
        rewrite send_message_ok by assumption; eexists; split; reflexivity. }
    exists s'. eexists. split; [exact Es|].
    rewrite Ts. cbn [trace record tick_chat]. now rewrite <- app_assoc.
Qed.

(** A job of the operator without a schedule gets a Resume button from
    /pause; tapping that button is acknowledged, answered with the message
    that the job has no schedule, and requests no update. *)
Theorem resume_button_without_schedule
    (EMAIL : string) (TZ : Z -> Z) (json_dumps : json -> string)
    (json_loads : string -> option json) (py_str : json -> string)
    (cid : string) (w : World) (s : Journal) (js : list Job) (j : Job) :
  chat_ok w ->
  jobs_list w = Ok js ->
  In j js ->
  creator_user_name j = Some EMAIL ->
  schedule (settings j) = None ->
  jobs_get w (JNum (job_id j)) = Ok j ->
  json_loads (json_dumps (payload "resume" "job_id" (job_id j)))
  = Some (payload "resume" "job_id" (job_id j)) ->
  let button := mkButton "▶️ Resume"
                         (json_dumps (payload "resume" "job_id" (job_id j))) in
  (exists s',
     send_pause_job_list EMAIL json_dumps w s = (Ok tt, s')
     /\ In (Sent (job_line (name (settings j)) (job_id j)) (Some button) false)
           (trace s'))
  /\ (exists s',
        handle_callback TZ json_dumps json_loads py_str
          (mkCall cid (callback_data button)) w s = (Ok tt, s')
        /\ trace s'
           = (trace s
              ++ [Answered cid "▶️ Resuming…";
                  Sent ("Job `" ++ py_str (JNum (job_id j)) ++ "` has no schedule.")
                       None false])%list).
Proof.
  intros Hc Hl Hin Ho Hs Hg Hrt button.
  assert (Hj : In j (filter (owned EMAIL) js))
    by (apply filter_In; split; [exact Hin|now apply owned_creator]).
  split.
  - destruct (send_pause_job_list_run EMAIL json_dumps w s js Hc Hl)
      as (s' & summary & E & T).
    { intros E. rewrite E in Hj. destruct Hj. }
    exists s'. split; [exact E|]. rewrite T.
    apply in_app_iff. right. right.
    apply in_map_iff. exists j. split; [|exact Hj].
    unfold pause_row. now rewrite Hs.
  - subst button. cbn [callback_data].
    rewrite (handle_callback_recognized TZ json_dumps json_loads py_str
               (mkCall cid (json_dumps (payload "resume" "job_id" (job_id j)))) w s
               [("action", JStr "resume"); ("job_id", JNum (job_id j))]
               "resume" "job_id" "▶️ Resuming…"
               (fun x => toggle_job_schedule py_str x false) Hc Hrt eq_refl).
    2:{ right. right. right. left. reflexivity. }
    cbn [items_get]. change (String.eqb "action" "job_id") with false.
    change (String.eqb "job_id" "job_id") with true. cbv iota.
    rewrite (toggle_job_schedule_run py_str _ false w _ j Hc Hg), Hs.
    eexists. split; [reflexivity|trace_eq].
Qed.

Lemma resume_button_without_schedule_witness :
  (exists s',
     send_pause_job_list operator dumps zone_host blank = (Ok tt, s')
     /\ In (Sent (job_line "adhoc" 8)
                 (Some (mkButton "▶️ Resume" (dumps (payload "resume" "job_id" 8))))
                 false)
           (trace s'))
  /\ (exists s',
        handle_callback IST dumps
          (loads_as (dumps (payload "resume" "job_id" 8)) (payload "resume" "job_id" 8))
          str_of (mkCall "cb7" (dumps (payload "resume" "job_id" 8))) zone_host blank
        = (Ok tt, s')
        /\ trace s'
           = [Answered "cb7" "▶️ Resuming…";
              Sent "Job `8` has no schedule." None false]).
Proof.
  apply (resume_button_without_schedule operator IST dumps
           (loads_as (dumps (payload "resume" "job_id" 8)) (payload "resume" "job_id" 8))
           str_of "cb7" zone_host blank [nightly; adhoc; foreign] adhoc).
  - intros n. reflexivity.
  - reflexivity.
  - right. left. reflexivity.
  - reflexivity.
  - reflexivity.
  - reflexivity.
  - reflexivity.
Defined.

(** ** More on the failure scan *)

Lemma for_acc_app {A S} (body : S -> A -> M S) (l1 l2 : list A) (w : World) :
  forall acc s,
    for_acc (l1 ++ l2) body acc w s
    = bind (for_acc l1 body acc) (fun a => for_acc l2 body a) w s.
Proof.
  induction l1 as [|x l1 IH]; intros acc s; simpl.
  - reflexivity.
  - unfold bind. destruct (body acc x w s) as [[a|e] s1]; [|reflexivity].
    rewrite IH. reflexivity.
Qed.

(** The scan sends nothing before it has listed the runs of every job of the
    operator: when listing the runs of one of them fails, the error leaves
    the scan and the journal is as it was, whatever failures the jobs listed
    before it had. *)
Theorem scan_stops_at_a_run_listing_error
    (EMAIL : string) (TZ : Z -> Z) (json_dumps : json -> string)
    (w : World) (s : Journal) (pre post : list Job) (j : Job) (e : string) :
  jobs_list w = Ok (pre ++ j :: post)%list ->
  (forall j', In j' pre -> owned EMAIL j' = true ->
     exists rs, jobs_list_runs w (JNum (job_id j')) = Ok rs) ->
  creator_user_name j = Some EMAIL ->
  jobs_list_runs w (JNum (job_id j)) = Raise e ->
  databricks_job_notification EMAIL TZ json_dumps w s = (Raise e, s).
Proof.
  intros Hl Hpre Ho%owned_creator Hr. unfold databricks_job_notification.
  erewrite bind_eq by (unfold date_today; reflexivity).
  erewrite bind_eq by (unfold ws_jobs_list; rewrite Hl; reflexivity).
  apply bind_raise. rewrite for_acc_app.
  erewrite bind_eq by (apply (outer_loop_collects EMAIL TZ _ w s pre Hpre [])).
  cbn [for_acc]. rewrite Ho. cbn [negb].
  apply bind_raise. apply bind_raise.
  unfold ws_jobs_list_runs. now rewrite Hr.
Qed.

Lemma scan_stops_at_a_run_listing_error_witness :
  failures_today operator IST half_listed [nightly]
  = [mkFailedRow "nightly" 43 (Some clock_0030) (Some clock_0100)]
  /\ databricks_job_notification operator IST dumps half_listed blank
     = (Raise "Read timed out", blank).
Proof.
  split; [reflexivity|].
  apply (scan_stops_at_a_run_listing_error operator IST dumps half_listed blank
           [nightly] [] adhoc "Read timed out").
  - reflexivity.
  - intros j' [<-|[]] _. eexists. reflexivity.
  - reflexivity.
  - reflexivity.
Defined.

Lemma send_failed_row_run (TZ : Z -> Z) (json_dumps : json -> string)
    (f : FailedRow) (w : World) (s : Journal) (a b : Z) :
  chat_ok w ->
  f_start f = Some a ->
  f_end f = Some b ->
  send_failed_row TZ json_dumps f w s
  = (Ok tt, record (failure_message TZ json_dumps f) (tick_chat (note (Printed f) s))).
Proof.
  intros Hc Ha Hb. unfold send_failed_row, failure_message.
  erewrite bind_eq by reflexivity. rewrite Ha, Hb.
  erewrite bind_eq by reflexivity. erewrite bind_eq by reflexivity.
  now apply send_message_ok.
Qed.

Lemma for_each_failed_rows (TZ : Z -> Z) (json_dumps : json -> string) (w : World)
    (fs : list FailedRow) :
  chat_ok w ->
  (forall f, In f fs -> f_start f <> None /\ f_end f <> None) ->
  forall s, exists s',
    for_each fs (send_failed_row TZ json_dumps) w s = (Ok tt, s')
    /\ trace s' = (trace s ++ map (failure_message TZ json_dumps) fs)%list
    /\ console s' = (console s ++ map Printed fs)%list.
Proof.
  intros Hc. induction fs as [|f fs IH]; intros Hfs s.
  - exists s. simpl. now rewrite !app_nil_r.
  - destruct (Hfs f (or_introl eq_refl)) as (Ha & Hb).
    destruct (f_start f) as [a|] eqn:Ea; [|contradiction].
    destruct (f_end f) as [b|] eqn:Eb; [|contradiction].
    destruct (IH (fun g Hg => Hfs g (or_intror Hg))
                 (record (failure_message TZ json_dumps f)
                         (tick_chat (note (Printed f) s))))
      as (s' & E & T & C).
    exists s'. cbn [for_each].
    erewrite bind_eq by (apply (send_failed_row_run TZ json_dumps f w s a b Hc Ea Eb)).
    split; [exact E|]. rewrite T, C. cbn [trace console record tick_chat note map].
    now rewrite <- !app_assoc.
Qed.

Lemma for_each_app {A} (body : A -> M unit) (l1 l2 : list A) (w : World) :
  forall s,
    for_each (l1 ++ l2) body w s
    = bind (for_each l1 body) (fun _ => for_each l2 body) w s.
Proof.
  induction l1 as [|x l1 IH]; intros s; simpl.
  - reflexivity.
  - unfold bind. destruct (body x w s) as [[[]|e] s1]; [|reflexivity].
    rewrite IH. reflexivity.
Qed.

(** A failed run of today without a start time stops the scan with a type
    error while its message is being built: by then the count and the
    messages of the failed runs before it have been sent, and the runs after
    it get no message. *)
Theorem scan_stops_at_a_run_without_start
    (EMAIL : string) (TZ : Z -> Z) (json_dumps : json -> string)
    (w : World) (s : Journal) (js : list Job)
    (before behind : list FailedRow) (f : FailedRow) :
  chat_ok w ->
  jobs_list w = Ok js ->
  (forall j, In j js -> owned EMAIL j = true ->
     exists rs, jobs_list_runs w (JNum (job_id j)) = Ok rs) ->
  failures_today EMAIL TZ w js = (before ++ f :: behind)%list ->
  (forall g, In g before -> f_start g <> None) ->
  f_start f = None ->
  exists s',
    databricks_job_notification EMAIL TZ json_dumps w s
    = (Raise "unsupported operand type(s) for /: 'NoneType' and 'int'", s')
    /\ trace s'
       = (trace s
          ++ Sent ("❌ Found "
                   ++ str_int (Z.of_nat (List.length (before ++ f :: behind)))
                   ++ " failure(s) today:") None false
             :: map (failure_message TZ json_dumps) before)%list.
Proof.
  intros Hc Hl Hr Hf Hbefore Hnone.
  pose proof (failures_have_an_end EMAIL TZ w js) as Hend. rewrite Hf in Hend.
  unfold databricks_job_notification.
  erewrite bind_eq by (unfold date_today; reflexivity).
  erewrite bind_eq by (unfold ws_jobs_list; rewrite Hl; reflexivity).
  erewrite bind_eq by (apply (outer_loop_collects EMAIL TZ _ w s js Hr [])).
  cbn [app]. fold (failures_today EMAIL TZ w js). rewrite Hf.
  destruct (before ++ f :: behind)%list as [|g0 gs] eqn:E;
    [now destruct before|].
  rewrite <- E in *. clear E g0 gs.
  erewrite bind_eq by (apply send_message_ok; assumption).
  rewrite for_each_app.
  match goal with |- context [bind _ _ w ?s1] =>
    destruct (for_each_failed_rows TZ json_dumps w before Hc) with (s := s1)
      as (s' & E & T & _)
  end.
  { intros g Hg. split; [now apply Hbefore|].
    destruct (Hend g) as (ms & ->); [|discriminate].
    apply in_app_iff. now left. }
  erewrite bind_eq by exact E.
  eexists. split.
  - cbn [for_each]. apply bind_raise. unfold send_failed_row.
    erewrite bind_eq by reflexivity. apply bind_raise.
    rewrite Hnone. reflexivity.
  - cbn [trace note]. rewrite T. cbn [trace record tick_chat].
    now rewrite <- app_assoc.
Qed.

Lemma scan_stops_at_a_run_without_start_witness :
  exists s',
    databricks_job_notification operator IST dumps startless blank
    = (Raise "unsupported operand type(s) for /: 'NoneType' and 'int'", s')
    /\ trace s'
       = [Sent "❌ Found 2 failure(s) today:" None false;
          failure_message IST dumps
            (mkFailedRow "nightly" 43 (Some clock_0030) (Some clock_0100))].
Proof.
  destruct (scan_stops_at_a_run_without_start operator IST dumps startless blank
              [nightly]
              [mkFailedRow "nightly" 43 (Some clock_0030) (Some clock_0100)] []
              (mkFailedRow "nightly" 44 None (Some clock_0100)))
    as (s' & E & T).
  - intros n. reflexivity.
  - reflexivity.
  - intros j _ _. eexists. reflexivity.
  - reflexivity.
  - intros g [<-|[]]. discriminate.
  - reflexivity.
  - exists s'. split; [exact E|]. rewrite T. reflexivity.
Defined.

(** ** Clock times *)

(** The time shown is the hour and the minute of the local time at the given
    offset: seconds are dropped, not rounded. *)
Theorem clock_HHMM_hour_minute (utcoffset ms h m : Z) :
  (0 <= h < 24)%Z ->
  (0 <= m < 60)%Z ->
  (h * 3600 + m * 60 <= (ms / 1000 + utcoffset) mod 86400 < h * 3600 + m * 60 + 60)%Z ->
  clock_HHMM utcoffset ms = two_digits h ++ ":" ++ two_digits m.
Proof.
  intros Hh Hm Hs. unfold clock_HHMM. cbv zeta.
  set (secs := (ms / 1000 + utcoffset)%Z) in *.
  assert (E1 : ((secs mod 86400) / 3600 = h)%Z).
  { symmetry. apply (Z.div_unique _ _ h (secs mod 86400 - h * 3600)); lia. }
  assert (E2 : ((secs mod 3600) / 60 = m)%Z).
  { rewrite <- (Z.mod_mod_divide secs 86400 3600) by (exists 24%Z; reflexivity).
    assert (E : ((secs mod 86400) mod 3600 = secs mod 86400 - h * 3600)%Z).
    { symmetry. apply (Z.mod_unique _ _ h); lia. }
    rewrite E. symmetry.
    apply (Z.div_unique _ _ m (secs mod 86400 - h * 3600 - m * 60)); lia. }
  now rewrite E1, E2.
Qed.

Lemma clock_HHMM_hour_minute_witness :
  clock_HHMM 19800 1704133799999 = "23:59".
Proof.
  apply (clock_HHMM_hour_minute 19800 1704133799999 23 59); vm_compute;
    split; congruence.
Defined.

(** ** Characters *)

(** Of a name of 27 characters whose first takes two bytes, the first 25
    characters are kept, which are 26 bytes. *)
Lemma take_chars_counts_characters :
  take_chars 25 long_name = "évaluation-des-risques-nu"
  /\ String.length (take_chars 25 long_name) = 26%nat
  /\ substring 0 25 long_name <> take_chars 25 long_name.
Proof.
  repeat split. vm_compute. discriminate.
Qed.

(** ** /pause and the enumeration of the job client *)

(** C8 (the code departs from the claim).  A job of the operator whose
    schedule has the pause status the job client reports, a member of its
    enumeration, gets the Pause button with the pause action from /pause,
    whichever member it is: PAUSED included. *)
Theorem paused_schedule_gets_the_pause_action
    (EMAIL : string) (json_dumps : json -> string)
    (w : World) (s : Journal) (js : list Job) (j : Job) (sch : CronSchedule)
    (p : PauseStatus) :
  chat_ok w ->
  jobs_list w = Ok js ->
  In j js ->
  creator_user_name j = Some EMAIL ->
  schedule (settings j) = Some sch ->
  pause_status sch = Member p ->
  exists s',
    send_pause_job_list EMAIL json_dumps w s = (Ok tt, s')
    /\ In (Sent (name (settings j) ++ LF ++ "Job ID: `" ++ str_int (job_id j) ++ "`")
                (Some (mkButton "⏸ Pause"
                         (json_dumps (JObj [("action", JStr "pause");
                                            ("job_id", JNum (job_id j))]))))
                false)
          (trace s').
Proof.
  intros Hc Hl Hin Ho Hs Hp.
  assert (Hj : In j (filter (owned EMAIL) js))
    by (apply filter_In; split; [exact Hin|now apply owned_creator]).
  destruct (send_pause_job_list_run EMAIL json_dumps w s js Hc Hl)
    as (s' & summary & E & T).
  { intros E. rewrite E in Hj. destruct Hj. }
  exists s'. split; [exact E|]. rewrite T.
  apply in_app_iff. right. right.
  apply in_map_iff. exists j. split; [|exact Hj].
  unfold pause_row, can_pause. rewrite Hs, Hp. reflexivity.
Qed.

Lemma paused_schedule_gets_the_pause_action_witness :
  schedule (settings weekly)
  = Some (mkCronSchedule (Member PAUSED) "0 0 4 ? * MON" "Asia/Kolkata")
  /\ exists s',
       send_pause_job_list operator dumps paused_host blank = (Ok tt, s')
       /\ In (Sent ("weekly" ++ LF ++ "Job ID: `10`")
                   (Some (mkButton "⏸ Pause"
                            (dumps (JObj [("action", JStr "pause");
                                          ("job_id", JNum 10)]))))
                   false)
             (trace s').
Proof.
  split; [reflexivity|].
  exact (paused_schedule_gets_the_pause_action operator dumps paused_host blank
           [weekly] weekly
           (mkCronSchedule (Member PAUSED) "0 0 4 ? * MON" "Asia/Kolkata") PAUSED
           (fun _ => eq_refl) eq_refl (or_introl eq_refl) eq_refl eq_refl eq_refl).
Defined.

(** ** The status check across the host's midnight *)

(** C9 (the code departs from the claim).  On a host whose local time is
    UTC, two status checks of the same job are made at 01:30 and at 06:00 of
    2 January in the configured zone, with the same job and the same runs:
    the first reports the failed run 41, the second that there are no runs
    today, because the host's date changed in between. *)
Theorem status_check_changes_within_a_zone_day :
  zone_date IST (now utc_host) = zone_date IST (now (at_clock utc_host clock_0600))
  /\ jobs_get (at_clock utc_host clock_0600) (JNum 7) = jobs_get utc_host (JNum 7)
  /\ jobs_list_runs (at_clock utc_host clock_0600) (JNum 7)
     = jobs_list_runs utc_host (JNum 7)
  /\ check_job_today_status IST dumps (JNum 7) utc_host blank
     = (Ok tt,
        mkJournal 1
          [Sent ("❌ **nightly**" ++ LF ++ "FAILED" ++ LF ++ "⏰ 23:59 – 00:30" ++ LF
                 ++ "Run `41`" ++ LF)
                (Some (mkButton "🔧 Repair"
                         (dumps (JObj [("action", JStr "repair"); ("run_id", JNum 41)]))))
                true]
          [])
  /\ check_job_today_status IST dumps (JNum 7) (at_clock utc_host clock_0600) blank
     = (Ok tt,
        mkJournal 1 [Sent ("📅 **nightly**" ++ LF ++ "No runs today.") None true] []).
Proof.
  repeat split; vm_compute; reflexivity.
Qed.

(** ** The failure scan, run to the end *)

Lemma owned_created_by (EMAIL : string) (j : Job) :
  owned EMAIL j = created_by EMAIL j.
Proof.
  unfold owned, created_by. destruct (creator_user_name j) as [u|]; [|reflexivity].
  destruct (string_dec u EMAIL) as [->|N].
  - apply String.eqb_refl.
  - now apply String.eqb_neq.
Qed.

Lemma failed_today_failed_on (TZ : Z -> Z) (offset t : Z) (r : Run) :
  failed_today TZ (local_date offset t) r
  = failed_on TZ ((t + offset * 1000) / 86400000) r.
Proof.
  unfold failed_today, failed_on, on_date, local_date.
  destruct (result_state (state r)) as [[]|]; reflexivity.
Qed.

Lemma failures_today_found (EMAIL : string) (TZ : Z -> Z) (w : World) (js : list Job) :
  failures_today EMAIL TZ w js
  = map (fun jr => failed_row (fst jr) (snd jr)) (failed_runs_today EMAIL TZ w js).
Proof.
  unfold failures_today, failed_runs_today.
  rewrite (filter_ext _ _ (owned_created_by EMAIL)).
  induction (filter (created_by EMAIL) js) as [|j l IH]; [reflexivity|].
  cbn [flat_map]. rewrite map_app, <- IH, map_map.
  rewrite (filter_ext _ _ (failed_today_failed_on TZ (host_utcoffset w) (now w))).
  reflexivity.
Qed.

(** With the job service answering and the chat service accepting, and every
    failed run of today having a start time, the scan sends the one message
    that there are no failures when there are none; otherwise it sends the
    count and then, in the order of the listings, one message per failed run
    of a job of the operator that ended today, with the name of the job, the
    id and the times of the run, and a button that carries the repair
    payload of that run. *)
Theorem failure_scan_messages
    (EMAIL : string) (TZ : Z -> Z) (json_dumps : json -> string)
    (w : World) (s : Journal) (js : list Job) :
  chat_ok w ->
  jobs_list w = Ok js ->
  (forall j, In j js -> creator_user_name j = Some EMAIL ->
     exists rs, jobs_list_runs w (JNum (job_id j)) = Ok rs) ->
  (forall jr, In jr (failed_runs_today EMAIL TZ w js) -> start_time (snd jr) <> None) ->
  exists s',
    databricks_job_notification EMAIL TZ json_dumps w s = (Ok tt, s')
    /\ trace s'
       = (trace s
          ++ match failed_runs_today EMAIL TZ w js with
             | [] => [Sent "🎉 No failures today!" None false]
             | found =>
               Sent ("❌ Found " ++ str_int (Z.of_nat (List.length found))
                     ++ " failure(s) today:") None false
               :: map (failure_report TZ json_dumps) found
             end)%list.
Proof.
  intros Hc Hl Hr Hs.
  assert (Hr' : forall j, In j js -> owned EMAIL j = true ->
                  exists rs, jobs_list_runs w (JNum (job_id j)) = Ok rs)
    by (intros j Hj Ho%owned_creator; now apply Hr).
  pose proof (failures_today_found EMAIL TZ w js) as Hfound.
  pose proof (failures_have_an_end EMAIL TZ w js) as Hend.
  assert (Hrows : forall f, In f (failures_today EMAIL TZ w js) ->
                    f_start f <> None /\ f_end f <> None).
  { intros f Hf. split.
    - rewrite Hfound in Hf. apply in_map_iff in Hf.
      destruct Hf as (jr & <- & Hjr). now apply Hs.
    - destruct (Hend f Hf) as (ms & ->). discriminate. }
  unfold databricks_job_notification.
  erewrite bind_eq by (unfold date_today; reflexivity).
  erewrite bind_eq by (unfold ws_jobs_list; rewrite Hl; reflexivity).
  erewrite bind_eq by (apply (outer_loop_collects EMAIL TZ _ w s js Hr' [])).
  cbn [app]. fold (failures_today EMAIL TZ w js).
  destruct (failed_runs_today EMAIL TZ w js) as [|jr0 found] eqn:Ef.
  - rewrite Hfound. cbn [map]. rewrite send_message_ok by assumption.
    eexists. split; reflexivity.
  - destruct (failures_today EMAIL TZ w js) as [|f0 fs] eqn:E; [discriminate|].
    rewrite <- E in *. clear E f0 fs.
    erewrite bind_eq by (apply send_message_ok; assumption).
    match goal with |- context [for_each _ _ w ?s1] =>
      destruct (for_each_failed_rows TZ json_dumps w (failures_today EMAIL TZ w js)
                  Hc Hrows s1) as (s' & E & T & _)
    end.
    exists s'. split; [exact E|].
    rewrite T. cbn [trace record tick_chat]. rewrite <- app_assoc.
    rewrite Hfound, length_map, map_map. reflexivity.
Qed.

Lemma failure_scan_messages_witness :
  exists s',
    databricks_job_notification operator IST dumps failing_host blank = (Ok tt, s')
    /\ trace s'
       = [Sent "❌ Found 1 failure(s) today:" None false;
          Sent ("🔴 **nightly**" ++ LF ++ "`43`" ++ LF ++ "⏰ 00:30 – 01:00")
               (Some (mkButton "🔧 Repair nightly"
                        (dumps (JObj [("action", JStr "repair"); ("run_id", JNum 43)]))))
               true].
Proof.
  destruct (failure_scan_messages operator IST dumps failing_host blank
              [nightly; foreign] (fun _ => eq_refl) eq_refl) as (s' & E & T).
  - intros j _ _. eexists. reflexivity.
  - intros jr Hjr. vm_compute in Hjr. destruct Hjr as [<-|[]]. discriminate.
  - exists s'. split; [exact E|]. rewrite T. reflexivity.
Defined.
